(** * HealthPathMobile: vitals status evaluation, recency formatting,
    the latest-vitals repository and the extraction cleaner.

    Shallow embedding of [src/services/vitalsService.ts],
    the cleaning loop of [extractVitalsFromDocument] (src/unnamed/part_001)
    and the blood-pressure card / [handleSaveVital] of
    [src/app/(tabs)/vitals.tsx]. *)

From Stdlib Require Import QArith Qround Lqa ZArith String Ascii List Bool.
From stdpp Require Import base gmap strings.
Import ListNotations.

Open Scope Q_scope.

(* ------------------------------------------------------------------ *)
(** ** JavaScript numbers *)

(** A JS number: [NaN], the two infinities, or a finite value.  A
    finite double is represented by the shortest decimal that rounds to
    it (what JS prints for it, see [to_double]); a literal such as [37.2]
    is its decimal value.  Distinct doubles have distinct, equally
    ordered representatives, so comparisons come out as they do on the
    doubles. *)
Inductive jsnum : Type :=
| NaN
| PosInf
| NegInf
| Fin (q : Q).

Definition jz (z : Z) : jsnum := Fin (inject_Z z).

(** [isNaN] *)
Definition isNaN (x : jsnum) : bool :=
  match x with NaN => true | _ => false end.

Definition Qltb (a b : Q) : bool := negb (Qle_bool b a).

(** [x < y]: every comparison with [NaN] is false. *)
Definition jlt (x y : jsnum) : bool :=
  match x, y with
  | NaN, _ | _, NaN => false
  | NegInf, NegInf => false
  | NegInf, _ => true
  | _, NegInf => false
  | PosInf, _ => false
  | Fin _, PosInf => true
  | Fin a, Fin b => Qltb a b
  end.

(** [x <= y] *)
Definition jle (x y : jsnum) : bool :=
  match x, y with
  | NaN, _ | _, NaN => false
  | _, _ => negb (jlt y x)
  end.

Definition jgt (x y : jsnum) : bool := jlt y x.
Definition jge (x y : jsnum) : bool := jle y x.

(** Truthiness of a number: [0], [-0] and [NaN] are falsy. *)
Definition num_truthy (x : jsnum) : bool :=
  match x with
  | NaN => false
  | Fin q => negb (Qeq_bool q 0)
  | _ => true
  end.

(* ------------------------------------------------------------------ *)
(** ** [getVitalStatus] (vitalsService.ts, lines 151-191) *)

Inductive vital_status : Type := normal | alert | critical.

(** [value2?: number] is [option jsnum]; [None] is [undefined]. *)
Definition getVitalStatus (type : string) (value1 : jsnum)
    (value2 : option jsnum) : vital_status :=
  if isNaN value1 then normal else
  if String.eqb type "bloodPressure" then
    match value2 with
    | None => normal                                  (* !value2 *)
    | Some v2 =>
        if negb (num_truthy v2) || isNaN v2 then normal else
        if jlt value1 (jz 90) || jlt v2 (jz 60) then alert else
        if jge value1 (jz 140) || jge v2 (jz 90) then critical else
        if jge value1 (jz 121) || jge v2 (jz 81) then alert else
        normal
    end
  else if String.eqb type "bloodSugar" then
    if jlt value1 (jz 70) then alert else
    if jge value1 (jz 126) then critical else
    if jge value1 (jz 100) then alert else
    normal
  else if String.eqb type "heartRate" || String.eqb type "pulseRate" then
    if jlt value1 (jz 60) || jgt value1 (jz 100) then alert else normal
  else if String.eqb type "oxygenSaturation" then
    if jlt value1 (jz 92) then critical else
    if jlt value1 (jz 95) then alert else
    normal
  else if String.eqb type "temperature" then
    if jlt value1 (jz 35) then alert else
    if jge value1 (jz 38) then critical else
    if jgt value1 (Fin (372 # 10)) then alert else
    normal
  else normal.

(* ------------------------------------------------------------------ *)
(** ** Number to decimal string *)

(** Decimal digits of a non-negative integer, prepended to [acc]; the
    fuel bounds the number of digits. *)
Fixpoint digits_aux (fuel : nat) (n : Z) (acc : string) : string :=
  match fuel with
  | O => acc
  | S f =>
      let acc' := String (ascii_of_nat (48 + Z.to_nat (n mod 10))) acc in
      if Z.eqb (n / 10) 0 then acc' else digits_aux f (n / 10) acc'
  end%Z.

(** JS [ToString] of an integral number below [1e21] in magnitude. *)
Definition Z_to_string (z : Z) : string :=
  let fuel := S (Z.to_nat (Z.log2 (Z.abs z))) in
  if Z.ltb z 0 then String "-" (digits_aux fuel (Z.abs z) EmptyString)
  else digits_aux fuel z EmptyString.

(* ------------------------------------------------------------------ *)
(** ** [timeSince] (vitalsService.ts, lines 194-207) *)

(** Instants are [Date.getTime()] values in milliseconds; [now_ms] is
    [new Date().getTime()] at call time.  [seconds / c] is the exact
    quotient [seconds # c]; [Math.floor] of it is [Qfloor]. *)
Definition timeSince (now_ms date_ms : Z) : string :=
  let seconds := ((now_ms - date_ms) / 1000)%Z in
  let interval := seconds # 31536000 in
  if Qltb 1 interval then String.append (Z_to_string (Qfloor interval)) " years ago" else
  let interval := seconds # 2592000 in
  if Qltb 1 interval then String.append (Z_to_string (Qfloor interval)) " months ago" else
  let interval := seconds # 86400 in
  if Qltb 1 interval then String.append (Z_to_string (Qfloor interval)) " days ago" else
  let interval := seconds # 3600 in
  if Qltb 1 interval then String.append (Z_to_string (Qfloor interval)) " hours ago" else
  let interval := seconds # 60 in
  if Qltb 1 interval then String.append (Z_to_string (Qfloor interval)) " minutes ago" else
  "Just now".

(** Ordering of the output buckets used by the monotonicity property:
    years (5) > months (4) > days (3) > hours (2) > minutes (1) >
    ["Just now"] (0).  The bucket is read off the string's suffix. *)
Fixpoint prefixb (p l : list ascii) : bool :=
  match p, l with
  | [], _ => true
  | c :: p', d :: l' => Ascii.eqb c d && prefixb p' l'
  | _ :: _, [] => false
  end.

Definition ends_with (suffix s : string) : bool :=
  prefixb (rev (list_ascii_of_string suffix)) (rev (list_ascii_of_string s)).

Definition bucket_of (s : string) : nat :=
  if ends_with " years ago" s then 5
  else if ends_with " months ago" s then 4
  else if ends_with " days ago" s then 3
  else if ends_with " hours ago" s then 2
  else if ends_with " minutes ago" s then 1
  else 0.

(* ------------------------------------------------------------------ *)
(** ** Rounding to a double *)

(** A finite JS number is kept as the shortest decimal that rounds to
    it (the digits [Number.prototype.toString] prints); [to_double]
    rounds an exact rational to the nearest IEEE-754 binary64 value,
    ties to even, and returns that decimal. *)

Section Doubles.
Local Open Scope Z_scope.

(** [b ^ k <= n / d] for [n, d > 0]. *)
Definition ge_pow (b n d k : Z) : bool :=
  if Z.leb 0 k then Z.leb (d * b ^ k) n else Z.leb d (n * b ^ (- k)).

(** [floor (log_b (n / d))] for [n, d > 0], from [log_b] on integers. *)
Definition floor_log (b : Z) (logb : Z -> Z) (n d : Z) : Z :=
  let k := (logb n - logb d)%Z in
  if ge_pow b n d k then k else (k - 1)%Z.

Fixpoint log10_aux (fuel : nat) (z : Z) : Z :=
  match fuel with
  | O => 0
  | S f => if Z.ltb z 10 then 0 else (1 + log10_aux f (z / 10))%Z
  end.

(** [floor (log10 z)] for [z >= 1]. *)
Definition Zlog10 (z : Z) : Z := log10_aux (S (Z.to_nat (Z.log2 z))) z.

(** [(n / d) * b ^ (- e)] as a numerator and a denominator. *)
Definition scaled (b n d e : Z) : Z * Z :=
  if Z.leb 0 e then (n, d * b ^ e) else (n * b ^ (- e), d).

(** [N / D] rounded to the nearest integer, ties to even. *)
Definition round_half_even (N D : Z) : Z :=
  let q := (N / D)%Z in
  match Z.compare (2 * (N mod D)) D with
  | Lt => q
  | Gt => (q + 1)%Z
  | Eq => if Z.even q then q else (q + 1)%Z
  end.

(** The double nearest [n / d] ([n, d > 0]) as [m * 2 ^ e] with a 53-bit
    significand ([e >= -1074] covers the subnormals); [None] when it
    overflows to [Infinity]. *)
Definition round_binary (n d : Z) : option (Z * Z) :=
  let k := floor_log 2 Z.log2 n d in
  let e := Z.max (k - 52) (-1074) in
  let '(N, D) := scaled 2 n d e in
  let m := round_half_even N D in
  if (Z.leb 0 e && Z.leb (2 ^ 1024) (m * 2 ^ e))%bool then None else Some (m, e).

Definition dyadic (m e : Z) : Q :=
  if Z.leb 0 e then inject_Z (m * 2 ^ e) else m # Z.to_pos (2 ^ (- e)).

Definition dec_value (c x : Z) : Q :=
  if Z.leb 0 x then inject_Z (c * 10 ^ x) else c # Z.to_pos (10 ^ (- x)).

(** [c * 10 ^ x] (with [c > 0]) rounds to the double [target]. *)
Definition rounds_to (c x : Z) (target : Q) : bool :=
  let '(N, D) := scaled 10 c 1 (- x) in
  match round_binary N D with
  | Some (m, e) => Qeq_bool (dyadic m e) target
  | None => false
  end.

(** The shortest [c * 10 ^ x] that rounds to [target = vn / vd], trying
    [p] significant digits from [p] on: the two [p]-digit neighbours of
    [target], the nearer one (the even one on a tie) when both round to
    it. *)
Fixpoint shortest_aux (fuel : nat) (p vn vd t : Z) (target : Q) : Z * Z :=
  match fuel with
  | O => (vn, 0%Z)
  | S f =>
      let x := (t - (p - 1))%Z in
      let '(N, D) := scaled 10 vn vd x in
      let lo := (N / D)%Z in
      let hi := (lo + 1)%Z in
      match rounds_to lo x target, rounds_to hi x target with
      | true, true =>
          let dl := (target - dec_value lo x)%Q in
          let dh := (dec_value hi x - target)%Q in
          if Qle_bool dh dl && negb (Qeq_bool dh dl) then (hi, x)
          else if Qeq_bool dh dl && negb (Z.even lo) then (hi, x)
          else (lo, x)
      | true, false => (lo, x)
      | false, true => (hi, x)
      | false, false => shortest_aux f (p + 1) vn vd t target
      end
  end.

(** The double nearest [n / d] ([n, d > 0]) as its shortest decimal
    [c * 10 ^ x]; [c = 0] when it underflows to [0], [None] when it
    overflows. *)
Definition dbl_decimal (n d : Z) : option (Z * Z) :=
  match round_binary n d with
  | None => None
  | Some (m, e) =>
      if Z.eqb m 0 then Some (0%Z, 0%Z)
      else
        let '(vn, vd) := scaled 2 m 1 (- e) in
        Some (shortest_aux 17 1 vn vd (floor_log 10 Zlog10 vn vd) (dyadic m e))
  end.

(** Rounding an exact value to a JS number. *)
Definition to_double (q : Q) : jsnum :=
  let n := Qnum q in
  let d := Zpos (Qden q) in
  match Z.compare n 0 with
  | Eq => Fin 0%Q
  | Gt => match dbl_decimal n d with
          | Some (c, x) => Fin (Qred (dec_value c x))
          | None => PosInf
          end
  | Lt => match dbl_decimal (- n) d with
          | Some (c, x) => Fin (Qred (- dec_value c x)%Q)
          | None => NegInf
          end
  end.


(* ------------------------------------------------------------------ *)
(** ** JS [ToString] of a number *)

Fixpoint zeros (k : nat) : string :=
  match k with O => EmptyString | S k' => String "0" (zeros k') end.

Fixpoint strip_zeros_aux (fuel : nat) (c x : Z) : Z * Z :=
  match fuel with
  | O => (c, x)
  | S f => if Z.eqb (c mod 10) 0 then strip_zeros_aux f (c / 10) (x + 1) else (c, x)
  end.

(** [c * 10 ^ x] with no trailing zero in [c] ([c > 0]). *)
Definition strip_zeros (c x : Z) : Z * Z :=
  strip_zeros_aux (S (Z.to_nat (Z.log2 c))) c x.

(** Number::toString (ECMA-262, 6.1.6.1.20) of a positive value
    [s * 10 ^ (n - k)] with [k] the number of digits of [s]. *)
Definition format_positive (s x : Z) : string :=
  let ds := Z_to_string s in
  let k := String.length ds in
  let n := (x + Z.of_nat k)%Z in
  if (Z.leb (Z.of_nat k) n && Z.leb n 21)%bool then
    String.append ds (zeros (Z.to_nat (n - Z.of_nat k)))
  else if (Z.ltb 0 n && Z.leb n 21)%bool then
    String.append (substring 0 (Z.to_nat n) ds)
      (String "." (substring (Z.to_nat n) k ds))
  else if (Z.ltb (-6) n && Z.leb n 0)%bool then
    String.append "0." (String.append (zeros (Z.to_nat (- n))) ds)
  else
    let e := (n - 1)%Z in
    let exp := String.append (if Z.leb 0 e then "e+" else "e-") (Z_to_string (Z.abs e)) in
    if Nat.eqb k 1 then String.append ds exp
    else String.append (substring 0 1 ds)
           (String "." (String.append (substring 1 (k - 1) ds) exp)).

(** [String(x)] for a number. *)
Definition num_to_string (x : jsnum) : string :=
  match x with
  | NaN => "NaN"
  | PosInf => "Infinity"
  | NegInf => "-Infinity"
  | Fin q =>
      let n := Qnum q in
      let d := Zpos (Qden q) in
      let body (m : Z) :=
        match dbl_decimal m d with
        | None => "Infinity"
        | Some (c, x) =>
            if Z.eqb c 0 then "0" else let '(s, x') := strip_zeros c x in format_positive s x'
        end in
      match Z.compare n 0 with
      | Eq => "0"
      | Gt => body n
      | Lt => let b := body (- n) in if String.eqb b "0" then "0" else String "-" b
      end
  end.

End Doubles.

(* ------------------------------------------------------------------ *)
(** ** Documents and the store *)

Set Warnings "-register-all".

(** A JSON / Firestore value. *)
Inductive jval : Type :=
| JNull
| JBool (b : bool)
| JNum (n : jsnum)
| JStr (s : string)
| JArr (l : list jval)
| JObj (l : list (string * jval)).

(** A document (a JS object used as a record): field name to value; an
    absent field is [undefined]. *)
Abbreviation doc := (gmap string jval).

(** Truthiness of a field read ([undefined] is [None]). *)
Definition truthy (v : option jval) : bool :=
  match v with
  | None | Some JNull => false
  | Some (JBool b) => b
  | Some (JNum n) => num_truthy n
  | Some (JStr s) => negb (String.eqb s "")
  | Some (JArr _) | Some (JObj _) => true
  end.

(** [a || b] on a field read. *)
Definition or_default (v : option jval) (dflt : jval) : jval :=
  match v with
  | Some x => if truthy (Some x) then x else dflt
  | None => dflt
  end.

(** The two collections: [latestVitals/{userId}] and
    [users/{userId}/vitalsHistory/{id}]. *)
Record store : Type := mkStore {
  latestVitals : gmap string doc;
  vitalsHistory : gmap string (list (string * doc))
}.

Inductive result (A : Type) : Type :=
| Ok (a : A)
| Err (msg : string).
Arguments Ok {A} a.
Arguments Err {A} msg.

(** [{...data, userId, date: data.date || now, source: data.source || 'manual'}] *)
Definition with_defaults (now_iso userId : string) (data : doc) : doc :=
  <["source" := or_default (data !! "source") (JStr "manual")]>
  (<["date" := or_default (data !! "date") (JStr now_iso)]>
  (<["userId" := JStr userId]> data)).

(** [vitalsService.updateLatestVitals] (lines 25-42).  [write_ok] is
    whether the backend accepts [setDoc]; [now_iso] is
    [new Date().toISOString()].  [merge: false] replaces the document. *)
Definition updateLatestVitals (write_ok : bool) (now_iso userId : string)
    (data : doc) (st : store) : result string * store :=
  if write_ok then
    (Ok userId,
     mkStore (<[userId := with_defaults now_iso userId data]> (latestVitals st))
             (vitalsHistory st))
  else (Err "Failed to save vital record", st).

(** [vitalsService.addVitalToHistory] (lines 48-65); [fresh_id] is the
    identifier [doc(historyRef)] generates. *)
Definition addVitalToHistory (write_ok : bool) (now_iso fresh_id userId : string)
    (data : doc) (st : store) : result string * store :=
  if write_ok then
    let old := default [] (vitalsHistory st !! userId) in
    (Ok fresh_id,
     mkStore (latestVitals st)
             (<[userId := old ++ [(fresh_id, with_defaults now_iso userId data)]]>
                (vitalsHistory st)))
  else (Err "Failed to save vital history", st).

(** [vitalsService.getLatestVitals] (lines 71-88).  [read_ok] is whether
    the backend [getDoc] succeeds; the [catch] returns [{}].  The result
    is [{id: docSnap.id, ...docSnap.data()}]: a stored [id] field wins. *)
Definition getLatestVitals (read_ok : bool) (userId : string) (st : store)
    : result doc :=
  if read_ok then
    match latestVitals st !! userId with
    | Some d => Ok (d ∪ {[ "id" := JStr userId ]})
    | None => Ok ∅
    end
  else Ok ∅.

(* ------------------------------------------------------------------ *)
(** ** The vitals screen: [handleSaveVital] and the blood-pressure card *)

(** [handleSaveVital] (vitals.tsx, lines 157-182): merge the screen's
    [latestVitals] with the submitted [data], stamp [date] and
    [source: 'manual'], replace the latest snapshot, then append to the
    history.  A failed write stops the sequence (the [catch] alerts). *)
Definition handleSaveVital (w_latest w_history : bool)
    (now_iso fresh_id userId : string) (latest data : doc) (st : store)
    : result unit * store :=
  let mergedData :=
    <["source" := JStr "manual"]> (<["date" := JStr now_iso]> (data ∪ latest)) in
  match updateLatestVitals w_latest now_iso userId mergedData st with
  | (Err e, st1) => (Err e, st1)
  | (Ok _, st1) =>
      match addVitalToHistory w_history now_iso fresh_id userId mergedData st1 with
      | (Err e, st2) => (Err e, st2)
      | (Ok _, st2) => (Ok tt, st2)
      end
  end.

(** A numeric field of [Partial<VitalRecord>] (typed [number]; every
    write path stores numbers there). *)
Definition num_field (v : doc) (k : string) : option jsnum :=
  match v !! k with Some (JNum n) => Some n | _ => None end.

Definition opt_truthy (x : option jsnum) : bool :=
  match x with Some n => num_truthy n | None => false end.

(** [latestValue] of the blood-pressure card (lines 319-320):
    [s && d ? `${s}/${d}` : '--/--']. *)
Definition bp_latestValue (lv : doc) : string :=
  let s := num_field lv "bloodPressureSystolic" in
  let d := num_field lv "bloodPressureDiastolic" in
  match s, d with
  | Some s', Some d' =>
      if num_truthy s' && num_truthy d'
      then String.append (num_to_string s') (String "/" (num_to_string d'))
      else "--/--"
  | _, _ => "--/--"
  end.

(** [status] of the blood-pressure card (lines 322-323). *)
Definition bp_status (lv : doc) : vital_status :=
  match num_field lv "bloodPressureSystolic" with
  | Some s =>
      if num_truthy s
      then getVitalStatus "bloodPressure" s (num_field lv "bloodPressureDiastolic")
      else normal
  | None => normal
  end.

Definition history_of (st : store) (userId : string) : list (string * doc) :=
  default [] (vitalsHistory st !! userId).

(* ------------------------------------------------------------------ *)
(** ** [parseFloat] *)

(** White space skipped by [parseFloat] (the single-byte ones: tab, LF,
    VT, FF, CR, space, NBSP). *)
Definition is_ws (c : ascii) : bool :=
  let n := nat_of_ascii c in
  (Nat.eqb n 9 || Nat.eqb n 10 || Nat.eqb n 11 || Nat.eqb n 12
   || Nat.eqb n 13 || Nat.eqb n 32 || Nat.eqb n 160)%bool.

Fixpoint skip_ws (l : list ascii) : list ascii :=
  match l with
  | c :: l' => if is_ws c then skip_ws l' else l
  | [] => []
  end.

Definition digit_val (c : ascii) : option Z :=
  let n := nat_of_ascii c in
  if (Nat.leb 48 n && Nat.leb n 57)%bool then Some (Z.of_nat (n - 48)) else None.

(** The longest run of decimal digits: its value, its length, the rest. *)
Fixpoint take_digits (l : list ascii) (acc : Z) (cnt : nat)
    : Z * nat * list ascii :=
  match l with
  | c :: l' =>
      match digit_val c with
      | Some d => take_digits l' (acc * 10 + d)%Z (S cnt)
      | None => (acc, cnt, l)
      end
  | [] => (acc, cnt, [])
  end.

Definition take_sign (l : list ascii) : bool * list ascii :=
  match l with
  | "-"%char :: l' => (true, l')
  | "+"%char :: l' => (false, l')
  | _ => (false, l)
  end.

(** [parseFloat(s)]: skip leading white space, read an optional sign,
    then ["Infinity"] or the longest prefix of the form
    [digits [. digits] [(e|E) [sign] digits]] with at least one mantissa
    digit, ignoring the rest; [NaN] when there is none.  The decimal
    read is rounded to the nearest double ([to_double]): below half the
    smallest subnormal it is [0], past the largest double [Infinity]. *)
Definition parseFloat (s : string) : jsnum :=
  let '(neg, l) := take_sign (skip_ws (list_ascii_of_string s)) in
  if prefixb (list_ascii_of_string "Infinity") l
  then (if neg then NegInf else PosInf)
  else
    let '(ip, ni, l1) := take_digits l 0 0 in
    let '(fp, nf, l2) :=
      match l1 with
      | "."%char :: l' => take_digits l' 0 0
      | _ => (0%Z, 0%nat, l1)
      end in
    if Nat.eqb (ni + nf) 0 then NaN
    else
      let e :=
        match l2 with
        | c :: l3 =>
            if (Ascii.eqb c "e" || Ascii.eqb c "E")%bool then
              let '(eneg, l4) := take_sign l3 in
              let '(ev, ne, _) := take_digits l4 0 0 in
              if Nat.eqb ne 0 then 0%Z else if eneg then (- ev)%Z else ev
            else 0%Z
        | [] => 0%Z
        end in
      let q := inject_Z (ip * 10 ^ Z.of_nat nf + fp) * Qpower 10 (e - Z.of_nat nf) in
      to_double (if neg then - q else q).

(* ------------------------------------------------------------------ *)
(** ** Cleaning in [extractVitalsFromDocument] (part_001, lines 147-172) *)

Definition is_string (v : jval) : bool :=
  match v with JStr _ => true | _ => false end.

(** One entry of the [for (const [key, value] of Object.entries(...))]
    loop: the value stored under [key] in [cleanedData], if any. *)
Definition clean_value (key : string) (value : jval) : option jval :=
  if (String.eqb key "notes" && is_string value)%bool then Some value
  else
    match value with
    | JNum n => if (negb (isNaN n) && jgt n (jz 0))%bool then Some (JNum n) else None
    | JStr s =>
        let numValue := parseFloat s in
        if (negb (isNaN numValue) && jgt numValue (jz 0))%bool
        then Some (JNum numValue) else None
    | _ => None
    end.

(** From the parsed object to the function's result: [null] when the
    object has no keys, otherwise [cleanedData].  Keys of a JS object are
    distinct and each is cleaned on its own, so the loop is a key-wise
    map over the object.  [cleanedData] is a plain object literal: the
    assignment [cleanedData['__proto__'] = v] of a kept number runs the
    inherited [__proto__] setter, which ignores a non-object and creates
    no property (while [JSON.parse] does create an own [__proto__] key),
    so that key never reaches the result. *)
Definition clean_extracted (extractedData : doc) : option doc :=
  if decide (extractedData = ∅) then None
  else Some (delete "__proto__" (map_imap clean_value extractedData)).

(* ------------------------------------------------------------------ *)
(** ** Further repository and screen operations *)

(** [vitalsService.deleteLatestVitals] (lines 116-123). *)
Definition deleteLatestVitals (write_ok : bool) (userId : string) (st : store)
    : result unit * store :=
  if write_ok then
    (Ok tt, mkStore (delete userId (latestVitals st)) (vitalsHistory st))
  else (Err "Failed to delete vitals", st).

(** What [processUploadedDocument] ends with: the success alert, the
    "No Vital Signs Found" alert, or the "Processing Error" alert. *)
Inductive upload_outcome : Type :=
| Uploaded
| NoVitalsFound
| ProcessingError (msg : string).

(** [processUploadedDocument] (vitals.tsx, lines 258-312).  [extraction]
    is what [extractVitalsFromDocument] resolved to ([Ok None] is [null])
    or the error it threw. *)
Definition processUploadedDocument (extraction : result (option doc))
    (w_latest w_history : bool) (now_iso fresh_id userId : string)
    (latest : doc) (st : store) : upload_outcome * store :=
  let fail e :=
    ProcessingError
      (if String.eqb e "" then "Failed to analyze the document. Please try a clearer image." else e) in
  match extraction with
  | Err e => (fail e, st)
  | Ok None => (NoVitalsFound, st)
  | Ok (Some extractedData) =>
      if decide (extractedData = ∅) then (NoVitalsFound, st)
      else
        let mergedData :=
          <["source" := JStr "imported"]>
          (<["date" := JStr now_iso]> (extractedData ∪ latest)) in
        match updateLatestVitals w_latest now_iso userId mergedData st with
        | (Err e, st1) => (fail e, st1)
        | (Ok _, st1) =>
            match addVitalToHistory w_history now_iso fresh_id userId mergedData st1 with
            | (Err e, st2) => (fail e, st2)
            | (Ok _, st2) => (Uploaded, st2)
            end
        end
  end.

(** [latestValue] of the heart-rate card (line 330):
    [latestVitals.heartRate?.toString() || '--']. *)
Definition hr_latestValue (lv : doc) : string :=
  match num_field lv "heartRate" with
  | Some n => let s := num_to_string n in if String.eqb s "" then "--" else s
  | None => "--"
  end.

(** [status] of the heart-rate card (line 332). *)
Definition hr_status (lv : doc) : vital_status :=
  match num_field lv "heartRate" with
  | Some n => if num_truthy n then getVitalStatus "heartRate" n None else normal
  | None => normal
  end.

(* ------------------------------------------------------------------ *)
(** ** Response clean-up and MIME type (src/unnamed/part_001) *)

(** [cleanedText.replace(/```json\n?/g, '')]: a left-to-right scan that
    drops every ["```json"], with the line feed after it if there is
    one. *)
Fixpoint strip_json_fences (l : list ascii) : list ascii :=
  match l with
  | "`" :: "`" :: "`" :: "j" :: "s" :: "o" :: "n" :: "010" :: r => strip_json_fences r
  | "`" :: "`" :: "`" :: "j" :: "s" :: "o" :: "n" :: r => strip_json_fences r
  | c :: r => c :: strip_json_fences r
  | [] => []
  end%char.

(** [cleanedText.replace(/```\n?/g, '')]. *)
Fixpoint strip_fences (l : list ascii) : list ascii :=
  match l with
  | "`" :: "`" :: "`" :: "010" :: r => strip_fences r
  | "`" :: "`" :: "`" :: r => strip_fences r
  | c :: r => c :: strip_fences r
  | [] => []
  end%char.

(** [String.prototype.trim] on the single-byte white space. *)
Definition trim (l : list ascii) : list ascii := rev (skip_ws (rev (skip_ws l))).

(** Lines 139-142 of [extractVitalsFromDocument]: the text handed to
    [JSON.parse]. *)
Definition clean_response (text : string) : string :=
  string_of_list_ascii
    (trim (strip_fences (strip_json_fences (trim (list_ascii_of_string text))))).

(** [toLowerCase] on ASCII letters. *)
Definition lower_char (c : ascii) : ascii :=
  let n := nat_of_ascii c in
  if (Nat.leb 65 n && Nat.leb n 90)%bool then ascii_of_nat (n + 32) else c.

Fixpoint toLowerCase (s : string) : string :=
  match s with
  | EmptyString => EmptyString
  | String c s' => String (lower_char c) (toLowerCase s')
  end.

(** [s.split('.')]: never empty; [""] splits to [[""]]. *)
Fixpoint split_dot (s : string) : list string :=
  match s with
  | EmptyString => [EmptyString]
  | String c s' =>
      match split_dot s' with
      | seg :: rest =>
          if Ascii.eqb c "." then EmptyString :: seg :: rest
          else String c seg :: rest
      | [] => [String c EmptyString]
      end
  end.

(** The [switch (extension)] of [getMimeType]. *)
Definition mime_of_ext (ext : string) : string :=
  if (String.eqb ext "jpg" || String.eqb ext "jpeg")%bool then "image/jpeg"
  else if String.eqb ext "png" then "image/png"
  else if String.eqb ext "gif" then "image/gif"
  else if String.eqb ext "webp" then "image/webp"
  else "image/jpeg".

Inductive doc_type : Type := Image | Pdf.

(** [getMimeType] (part_001, lines 47-66); [.pop()] of the split is its
    last segment. *)
Definition getMimeType (uri : string) (type : doc_type) : string :=
  match type with
  | Pdf => "application/pdf"
  | Image => mime_of_ext (List.last (split_dot (toLowerCase uri)) EmptyString)
  end.

(* ------------------------------------------------------------------ *)
(** ** [getVitalsHistory] (vitalsService.ts, lines 93-111) *)

(** [{id: doc.id, ...doc.data()}]: a stored [id] field wins over the
    document id. *)
Definition history_record (entry : string * doc) : doc :=
  snd entry ∪ {[ "id" := JStr (fst entry) ]}.

(** [query] is what Firestore returns for [orderBy('date', 'desc')] and
    the optional [limit]: some of the collection's documents, in some
    order.  A failed read returns [[]]. *)
Definition getVitalsHistory (query : list (string * doc) -> list (string * doc))
    (read_ok : bool) (userId : string) (st : store) : list doc :=
  if read_ok then map history_record (query (history_of st userId)) else [].

(* ------------------------------------------------------------------ *)
(** ** CSV export (ExportDataModal.tsx, lines 87-102) *)

(** A value in a template literal [`${cell}`]. *)
Fixpoint jval_to_string (v : jval) : string :=
  match v with
  | JNull => "null"
  | JBool b => if b then "true" else "false"
  | JNum n => num_to_string n
  | JStr s => s
  | JArr l =>
      (fix join (l : list jval) : string :=
         match l with
         | [] => ""
         | x :: r =>
             let e := match x with JNull => "" | _ => jval_to_string x end in
             match r with [] => e | _ => String.append e (String "," (join r)) end
         end) l
  | JObj _ => "[object Object]"
  end.

(** [vital.k || '']. *)
Definition export_cell (vital : doc) (k : string) : string :=
  match vital !! k with
  | Some x => if truthy (Some x) then jval_to_string x else ""
  | None => ""
  end.

(** One row of the CSV, before quoting; [fmt_date] is
    [new Date(vital.date).toLocaleString()]. *)
Definition csv_row (fmt_date : option jval -> string) (vital : doc) : list string :=
  [fmt_date (vital !! "date");
   export_cell vital "bloodPressureSystolic";
   export_cell vital "bloodPressureDiastolic";
   export_cell vital "heartRate";
   export_cell vital "temperature";
   export_cell vital "oxygenSaturation";
   export_cell vital "bloodSugarFasting";
   export_cell vital "weightKg";
   export_cell vital "source"].

(* ------------------------------------------------------------------ *)
(** ** [QuickAddModal] (QuickAddModal.tsx, lines 115-190) *)

(** [String.prototype.trim]. *)
Definition js_trim (s : string) : string :=
  string_of_list_ascii (trim (list_ascii_of_string s)).

Definition numericFields : list string :=
  ["bloodPressureSystolic"; "bloodPressureDiastolic"; "heartRate";
   "temperature"; "oxygenSaturation"; "bloodSugarFasting"; "weightKg"].

(** [validateForm]; [to_number] is [Number] on strings, [formData] the
    form's text fields.  [false] is the path that shows an alert. *)
Definition validateForm (to_number : string -> jsnum)
    (formData : gmap string string) : bool :=
  let hasValue :=
    existsb (fun v => negb (String.eqb (js_trim v) "")) (map snd (map_to_list formData)) in
  if negb hasValue then false
  else forallb (fun field =>
         match formData !! field with
         | Some value => negb (negb (String.eqb value "") && isNaN (to_number value))
         | None => true
         end) numericFields.

(** One [if (formData.k) dataToSave.k = Number(formData.k)] of
    [handleSave]. *)
Definition quick_field (to_number : string -> jsnum) (formData : gmap string string)
    (field : string) (acc : doc) : doc :=
  match formData !! field with
  | Some v => if String.eqb v "" then acc else <[field := JNum (to_number v)]> acc
  | None => acc
  end.

Definition dataToSave (to_number : string -> jsnum) (formData : gmap string string) : doc :=
  let d := fold_right (quick_field to_number formData) ∅ numericFields in
  match formData !! "notes" with
  | Some n => if String.eqb n "" then d else <["notes" := JStr n]> d
  | None => d
  end.

(** [handleSave]: [None] when validation fails, otherwise the object
    passed to [onSave]. *)
Definition quick_handleSave (to_number : string -> jsnum)
    (formData : gmap string string) : option doc :=
  if validateForm to_number formData then Some (dataToSave to_number formData) else None.

(* ================================================================== *)
(** * Proofs *)

Ltac qbool_to_prop :=
  let split_on a b :=
      let E := fresh "E" in
      destruct (Qle_bool a b) eqn:E;
      [apply Qle_bool_iff in E
      | let F := fresh "F" in
        assert (F : b < a)
          by (apply Qnot_le_lt; rewrite <- Qle_bool_iff; congruence);
        clear E] in
  let split_eq a b :=
      let E := fresh "E" in
      destruct (Qeq_bool a b) eqn:E;
      [apply Qeq_bool_iff in E
      | let F := fresh "F" in
        assert (F : ~ a == b)
          by (rewrite <- Qeq_bool_iff; congruence);
        clear E] in
  repeat match goal with
  | |- context [Qle_bool ?a ?b] => split_on a b
  | H : context [Qle_bool ?a ?b] |- _ => split_on a b
  | |- context [Qeq_bool ?a ?b] => split_eq a b
  | H : context [Qeq_bool ?a ?b] |- _ => split_eq a b
  end.

Ltac qsolve :=
  simpl in *; unfold Qltb, inject_Z in *;
  qbool_to_prop; simpl in *;
  try (exfalso; lra);
  intuition (try congruence; try lra).

(** C5: for every temperature [t], [getVitalStatus 'temperature' t] is
    [critical] iff [t >= 38], [alert] iff [t < 35] or
    [35 <= t < 38 /\ t > 37.2], and [normal] otherwise; the boundary
    values 34.9, 35, 37.2, 37.3, 37.9, 38, 38.1 evaluate accordingly. *)
Theorem temperature_status_spec (t : jsnum) :
  (getVitalStatus "temperature" t None = critical <-> jge t (jz 38) = true) /\
  (getVitalStatus "temperature" t None = alert <->
     (jlt t (jz 35) || (jle (jz 35) t && jlt t (jz 38)
                        && jgt t (Fin (372 # 10)))) = true) /\
  (getVitalStatus "temperature" t None = normal <->
     jge t (jz 38) = false /\
     (jlt t (jz 35) || (jle (jz 35) t && jlt t (jz 38)
                        && jgt t (Fin (372 # 10)))) = false) /\
  map (fun x => getVitalStatus "temperature" x None)
    [Fin (349 # 10); jz 35; Fin (372 # 10); Fin (373 # 10);
     Fin (379 # 10); jz 38; Fin (381 # 10)]
  = [alert; normal; normal; alert; alert; critical; critical].
Proof.
  split; [|split; [|split]]; [| | | reflexivity];
  destruct t as [| | |q]; unfold getVitalStatus; qsolve.
Qed.

(** C1 (counterexample): the claim that [s >= 140] or [d >= 90] always
    yields [critical] fails: the hypotensive check runs first, so
    systolic 80 with diastolic 95 is classified [alert]. *)
Lemma bp_critical_regardless_counterexample :
  getVitalStatus "bloodPressure" (jz 80) (Some (jz 95)) = alert /\
  ~ (forall s d : jsnum, (jge s (jz 140) || jge d (jz 90)) = true ->
       getVitalStatus "bloodPressure" s (Some d) = critical).
Proof.
  split; [reflexivity|].
  intros H. specialize (H (jz 80) (jz 95) eq_refl). discriminate H.
Qed.

(** C1 (amended): for a blood-pressure pair [(s, d)] with [s >= 140] or
    [d >= 90], the evaluator returns [normal] when [d] is [0] or NaN or
    [s] is NaN (the [!value2 || isNaN] guards); otherwise [alert] when
    [s < 90] or [d < 60] (the hypotensive rule, checked first), and
    [critical] exactly when [s >= 90] and [d >= 60]. *)
Theorem bp_critical_when_high (s d : jsnum) :
  (jge s (jz 140) || jge d (jz 90)) = true ->
  (getVitalStatus "bloodPressure" s (Some d) = normal
     <-> (isNaN s || negb (num_truthy d))%bool = true) /\
  (getVitalStatus "bloodPressure" s (Some d) = alert
     <-> (negb (isNaN s) && num_truthy d && (jlt s (jz 90) || jlt d (jz 60)))%bool = true) /\
  (getVitalStatus "bloodPressure" s (Some d) = critical
     <-> (jge s (jz 90) && jge d (jz 60))%bool = true).
Proof.
  destruct s as [| | |qs], d as [| | |qd]; unfold getVitalStatus, num_truthy; qsolve.
Qed.

Lemma bp_critical_when_high_witness :
  (jge (jz 80) (jz 140) || jge (jz 95) (jz 90)) = true /\
  getVitalStatus "bloodPressure" (jz 80) (Some (jz 95)) = alert.
Proof.
  split; [reflexivity|].
  apply (bp_critical_when_high (jz 80) (jz 95) eq_refl). reflexivity.
Defined.

(** C9: a diastolic reading of exactly [0] is falsy, so for every
    systolic [s], [getVitalStatus 'bloodPressure' s 0] is [normal]:
    it never reaches the hypotensive check although [0 < 60]. *)
Theorem bp_zero_diastolic_normal (s : jsnum) :
  getVitalStatus "bloodPressure" s (Some (jz 0)) = normal.
Proof. destruct s; reflexivity. Qed.

Example timeSince_examples :
  timeSince 61000 0 = "1 minutes ago" /\ timeSince 60999 0 = "Just now" /\
  timeSince (3 * 86400000 + 5) 0 = "3 days ago" /\
  timeSince 0 5000 = "Just now" /\
  bucket_of (timeSince (400 * 86400000) 0) = 5%nat.
Proof. repeat split; reflexivity. Qed.

Lemma list_ascii_of_string_append (a b : string) :
  list_ascii_of_string (String.append a b)
  = list_ascii_of_string a ++ list_ascii_of_string b.
Proof. induction a as [|c a IH]; simpl; [reflexivity | now rewrite IH]. Qed.

Ltac bucket_suffix :=
  intros; unfold bucket_of, ends_with;
  rewrite list_ascii_of_string_append, rev_app_distr; reflexivity.

Lemma bucket_years x : bucket_of (String.append x " years ago") = 5%nat.
Proof. bucket_suffix. Qed.
Lemma bucket_months x : bucket_of (String.append x " months ago") = 4%nat.
Proof. bucket_suffix. Qed.
Lemma bucket_days x : bucket_of (String.append x " days ago") = 3%nat.
Proof. bucket_suffix. Qed.
Lemma bucket_hours x : bucket_of (String.append x " hours ago") = 2%nat.
Proof. bucket_suffix. Qed.
Lemma bucket_minutes x : bucket_of (String.append x " minutes ago") = 1%nat.
Proof. bucket_suffix. Qed.

(** [interval > 1] with [interval = seconds / c] is [seconds > c]. *)
Lemma Qltb_1_quot (s : Z) (c : positive) :
  Qltb 1 (s # c) = Z.ltb (Zpos c) s.
Proof.
  unfold Qltb, Qle_bool; simpl.
  rewrite Z.mul_1_r, Z.ltb_antisym. reflexivity.
Qed.

(** The bucket [timeSince] picks, as a function of elapsed seconds. *)
Definition seconds_rank (s : Z) : nat :=
  if Z.ltb 31536000 s then 5 else
  if Z.ltb 2592000 s then 4 else
  if Z.ltb 86400 s then 3 else
  if Z.ltb 3600 s then 2 else
  if Z.ltb 60 s then 1 else 0.

Lemma timeSince_bucket (now_ms date_ms : Z) :
  bucket_of (timeSince now_ms date_ms) = seconds_rank ((now_ms - date_ms) / 1000).
Proof.
  unfold timeSince, seconds_rank. rewrite !Qltb_1_quot.
  destruct (Z.ltb 31536000 _); [apply bucket_years|].
  destruct (Z.ltb 2592000 _); [apply bucket_months|].
  destruct (Z.ltb 86400 _); [apply bucket_days|].
  destruct (Z.ltb 3600 _); [apply bucket_hours|].
  destruct (Z.ltb 60 _); [apply bucket_minutes|reflexivity].
Qed.

Lemma seconds_rank_mono (s1 s2 : Z) :
  (s2 <= s1)%Z -> (seconds_rank s2 <= seconds_rank s1)%nat.
Proof.
  intros H. unfold seconds_rank.
  repeat match goal with
  | |- context [Z.ltb ?a ?b] => destruct (Z.ltb_spec a b)
  end; lia.
Qed.

(** "Just now" is returned exactly when fewer than 61 whole seconds
    have elapsed, i.e. when the age is below 61000 ms. *)
Lemma timeSince_just_now_iff (now_ms date_ms : Z) :
  timeSince now_ms date_ms = "Just now" <-> (now_ms - date_ms < 61000)%Z.
Proof.
  split.
  - intros H. destruct (Z.lt_ge_cases (now_ms - date_ms) 61000) as [Hl|Hge];
      [exact Hl|exfalso].
    assert (Hs : (61 <= (now_ms - date_ms) / 1000)%Z).
    { apply Z.div_le_lower_bound; lia. }
    pose proof (timeSince_bucket now_ms date_ms) as Hb.
    rewrite H in Hb. unfold seconds_rank in Hb. simpl in Hb.
    repeat match type of Hb with
    | context [Z.ltb ?a ?b] => destruct (Z.ltb_spec a b)
    end; try discriminate; lia.
  - intros H.
    assert (Hs : ((now_ms - date_ms) / 1000 < 61)%Z).
    { apply Z.div_lt_upper_bound; lia. }
    unfold timeSince. rewrite !Qltb_1_quot.
    repeat match goal with
    | |- context [Z.ltb ?a ?b] => destruct (Z.ltb_spec a b); [lia|]
    end; reflexivity.
Qed.

(** C3 (counterexample): an instant 61 seconds old (under 120 seconds)
    is reported as "1 minutes ago", not "Just now": the minutes bucket
    fires as soon as [seconds / 60 > 1], i.e. from 61 seconds on. *)
Lemma timeSince_under_120s_counterexample :
  timeSince 61000 0 = "1 minutes ago" /\
  ~ (forall now_ms date_ms : Z, (0 <= now_ms - date_ms < 120000)%Z ->
       timeSince now_ms date_ms = "Just now").
Proof.
  split; [reflexivity|].
  intros H. specialize (H 61000%Z 0%Z ltac:(lia)). discriminate H.
Qed.

(** C3 (amended): [timeSince] returns "Just now" exactly for instants
    less than 61 seconds old (age below 61000 ms, including instants in
    the future), and "1 minutes ago" for an age from 61000 ms up to
    (not including) 120000 ms. *)
Theorem timeSince_just_now_under_61s (now_ms date_ms : Z) :
  (timeSince now_ms date_ms = "Just now" <-> (now_ms - date_ms < 61000)%Z) /\
  ((61000 <= now_ms - date_ms < 120000)%Z -> timeSince now_ms date_ms = "1 minutes ago").
Proof.
  split; [apply timeSince_just_now_iff|].
  intros H.
  assert (Hs : (61 <= (now_ms - date_ms) / 1000 < 120)%Z).
  { split; [apply Z.div_le_lower_bound | apply Z.div_lt_upper_bound]; lia. }
  assert (Hm : ((now_ms - date_ms) / 1000 / 60 = 1)%Z).
  { symmetry. apply (Z.div_unique_pos _ 60 1 ((now_ms - date_ms) / 1000 - 60)%Z); lia. }
  unfold timeSince. rewrite !Qltb_1_quot.
  repeat match goal with
  | |- context [Z.ltb ?a ?b] => destruct (Z.ltb_spec a b); [lia|]
  end.
  destruct (Z.ltb_spec 60 ((now_ms - date_ms) / 1000)); [|lia].
  unfold Qfloor. rewrite Hm. reflexivity.
Qed.

(** C7: [timeSince] is monotonic in the age of its argument: for a
    fixed call time, an earlier instant [p1 < p2] gets a bucket
    (years > months > days > hours > minutes > "Just now") at least as
    high as the later one (in particular for instants before now). *)
Theorem timeSince_monotone (now_ms p1 p2 : Z) :
  (p1 < p2)%Z -> (p2 <= now_ms)%Z ->
  (bucket_of (timeSince now_ms p2) <= bucket_of (timeSince now_ms p1))%nat.
Proof.
  intros Hlt _. rewrite !timeSince_bucket.
  apply seconds_rank_mono, Z.div_le_mono; lia.
Qed.

Lemma timeSince_monotone_witness :
  ((86400000 < 90000000)%Z /\ (90000000 <= 100000000000)%Z) /\
  (bucket_of (timeSince 100000000000 90000000)
   <= bucket_of (timeSince 100000000000 86400000))%nat.
Proof.
  split; [split; lia|].
  apply timeSince_monotone; lia.
Defined.

(** C10: for every instant at or after the call time (zero or negative
    elapsed time), [timeSince] returns "Just now". *)
Theorem timeSince_future_just_now (now_ms date_ms : Z) :
  (now_ms <= date_ms)%Z -> timeSince now_ms date_ms = "Just now".
Proof. intros H. apply timeSince_just_now_iff. lia. Qed.

Lemma timeSince_future_just_now_witness :
  (1000 <= 5000)%Z /\ timeSince 1000 5000 = "Just now".
Proof.
  split; [lia|].
  apply timeSince_future_just_now; lia.
Defined.

Example num_to_string_examples :
  num_to_string (jz 150) = "150" /\ num_to_string (Fin (372 # 10)) = "37.2" /\
  num_to_string (Fin (-5 # 100)) = "-0.05" /\ num_to_string (jz 0) = "0" /\
  num_to_string (Fin (705 # 10)) = "70.5" /\ num_to_string (Fin (1 # 3)) = "0.3333333333333333" /\
  num_to_string (Fin (1 # 10000000)) = "1e-7" /\
  num_to_string (Fin (inject_Z (10 ^ 21))) = "1e+21".
Proof. repeat split; vm_compute; reflexivity. Qed.

(** C2 (counterexample): when the backend read fails, [getLatestVitals]
    does not propagate the error: its [catch] returns the empty record. *)
Lemma getLatestVitals_propagates_counterexample :
  getLatestVitals false "u1" (mkStore ∅ ∅) = Ok ∅ /\
  forall msg, getLatestVitals false "u1" (mkStore ∅ ∅) <> Err msg.
Proof. split; [reflexivity | intros msg; discriminate]. Qed.

(** C2 (amended): [getLatestVitals userId] returns the empty record when
    no snapshot exists for [userId], also returns the empty record when
    the backend read fails (the error is logged and swallowed), and so
    never fails. *)
Theorem getLatestVitals_lenient (userId : string) (st : store) :
  (latestVitals st !! userId = None -> getLatestVitals true userId st = Ok ∅) /\
  getLatestVitals false userId st = Ok ∅ /\
  (forall read_ok msg, getLatestVitals read_ok userId st <> Err msg).
Proof.
  unfold getLatestVitals. split; [|split].
  - intros H. rewrite H. reflexivity.
  - reflexivity.
  - intros [|] msg; [destruct (latestVitals st !! userId)|]; discriminate.
Qed.

(** C6: [updateLatestVitals] is a full replace keyed by [userId]: after
    a call with [data] (successful or not), a second successful call with
    the same [data] leaves the store exactly as that single call alone
    would; the stored snapshot depends only on [data] (and the clock, for
    a missing [date]), not on the previous snapshot.  With one clock
    reading, two calls equal one. *)
Theorem updateLatestVitals_idempotent (ok1 : bool) (t1 t2 userId : string)
    (data : doc) (st : store) :
  snd (updateLatestVitals true t2 userId data
         (snd (updateLatestVitals ok1 t1 userId data st)))
  = snd (updateLatestVitals true t2 userId data st) /\
  snd (updateLatestVitals true t1 userId data
         (snd (updateLatestVitals true t1 userId data st)))
  = snd (updateLatestVitals true t1 userId data st) /\
  latestVitals (snd (updateLatestVitals true t1 userId data st)) !! userId
  = Some (with_defaults t1 userId data).
Proof.
  unfold updateLatestVitals. split; [|split].
  - destruct ok1; simpl; [rewrite insert_insert_eq|]; reflexivity.
  - simpl. rewrite insert_insert_eq. reflexivity.
  - simpl. apply lookup_insert_eq.
Qed.

(** C8 (counterexample): a snapshot holding systolic [0] and diastolic
    [80] (a manual entry of "0" is saved as the number 0) has both halves
    present, yet the card shows "--/--" rather than "0/80": the [&&]
    guard tests truthiness, not presence.  The sibling heart-rate card,
    [heartRate?.toString() || '--'], prints a stored [0] as "0". *)
Lemma bp_card_counterexample :
  bp_latestValue {[ "bloodPressureSystolic" := JNum (jz 0);
                    "bloodPressureDiastolic" := JNum (jz 80) ]} = "--/--" /\
  hr_latestValue {[ "heartRate" := JNum (jz 0) ]} = "0" /\
  ~ (forall (lv : doc) (s d : jsnum),
       num_field lv "bloodPressureSystolic" = Some s ->
       num_field lv "bloodPressureDiastolic" = Some d ->
       bp_latestValue lv
       = String.append (num_to_string s) (String "/" (num_to_string d))).
Proof.
  split; [reflexivity|split; [vm_compute; reflexivity|]].
  intros H.
  specialize (H {[ "bloodPressureSystolic" := JNum (jz 0);
                   "bloodPressureDiastolic" := JNum (jz 80) ]}
                (jz 0) (jz 80) eq_refl eq_refl).
  vm_compute in H. discriminate H.
Qed.

(** A field other than the four the save path stamps reads back from
    the re-read snapshot as it was in the written data. *)
Lemma lookup_reread_field (m : doc) (now_iso userId k : string) :
  k <> "source" -> k <> "date" -> k <> "userId" -> k <> "id" ->
  (with_defaults now_iso userId m ∪ {[ "id" := JStr userId ]}) !! k = m !! k.
Proof.
  intros H1 H2 H3 H4. unfold with_defaults.
  rewrite lookup_union_l by (apply lookup_singleton_ne; congruence).
  rewrite !lookup_insert_ne by congruence. reflexivity.
Qed.

Lemma lookup_merged_field (data latest : doc) (now_iso k : string) (x : jval) :
  k <> "source" -> k <> "date" -> data !! k = Some x ->
  (<["source" := JStr "manual"]> (<["date" := JStr now_iso]> (data ∪ latest))) !! k
  = Some x.
Proof.
  intros H1 H2 H. rewrite !lookup_insert_ne by congruence.
  apply lookup_union_Some_l. exact H.
Qed.

(** After a successful manual save of [{150, 95}], the re-read snapshot
    shows "150/95" with status [critical], and the history gained one
    entry tagged [source: 'manual']. *)
Lemma bp_manual_save_scenario (now_iso fresh_id userId : string)
    (latest : doc) (st : store) :
  let data : doc := {[ "bloodPressureSystolic" := JNum (jz 150);
                       "bloodPressureDiastolic" := JNum (jz 95) ]} in
  let res := handleSaveVital true true now_iso fresh_id userId latest data st in
  fst res = Ok tt /\
  (exists v, getLatestVitals true userId (snd res) = Ok v /\
             bp_latestValue v = "150/95" /\ bp_status v = critical) /\
  (exists d', history_of (snd res) userId = history_of st userId ++ [(fresh_id, d')] /\
              d' !! "source" = Some (JStr "manual")).
Proof.
  intros data res. subst res. unfold handleSaveVital, updateLatestVitals, addVitalToHistory.
  cbn [fst snd latestVitals vitalsHistory]. split; [reflexivity|]. split.
  - unfold getLatestVitals. cbn [latestVitals]. rewrite lookup_insert_eq.
    eexists; split; [reflexivity|].
    unfold bp_latestValue, bp_status, num_field.
    rewrite !lookup_reread_field by discriminate.
    rewrite !(lookup_merged_field _ _ _ _ (JNum (jz 150)))
      by (reflexivity || discriminate).
    rewrite !(lookup_merged_field _ _ _ _ (JNum (jz 95)))
      by (reflexivity || discriminate).
    split; reflexivity.
  - unfold history_of. cbn [vitalsHistory]. rewrite lookup_insert_eq. simpl.
    eexists; split; [reflexivity|].
    unfold with_defaults. rewrite !lookup_insert_eq. reflexivity.
Qed.

Example parseFloat_examples :
  parseFloat "72" = jz 72 /\ parseFloat "  -3.5e1x" = Fin (-35) /\
  parseFloat "Infinity" = PosInf /\ parseFloat "abc" = NaN /\
  parseFloat ".5" = Fin (1 # 2) /\ parseFloat "120/80" = jz 120 /\
  parseFloat "1e-400" = jz 0 /\ parseFloat "1e400" = PosInf /\
  parseFloat "0.10000000000000001" = Fin (1 # 10).
Proof. repeat split; vm_compute; reflexivity. Qed.

(** C4 (counterexample): cleaning does not keep only finite values: the
    string "Infinity" is coerced by [parseFloat] to [+Infinity], which is
    not NaN and [> 0], and so is kept (as is a number [1e400], parsed to
    [+Infinity]); and a positive number under [notes] is kept too, so
    [notes] is not kept exactly when it is a string. *)
Lemma clean_extracted_finite_counterexample :
  clean_extracted {[ "heartRate" := JStr "Infinity" ]}
  = Some {[ "heartRate" := JNum PosInf ]} /\
  clean_extracted {[ "temperature" := JNum PosInf ]}
  = Some {[ "temperature" := JNum PosInf ]} /\
  clean_extracted {[ "notes" := JNum (jz 5) ]}
  = Some {[ "notes" := JNum (jz 5) ]}.
Proof. repeat split; reflexivity. Qed.

(** C4 (amended): for a parsed extraction object [m] with at least one
    key, cleaning never keeps a [__proto__] key; under any other key it
    keeps a number exactly when it is not NaN and [> 0] (so [+Infinity]
    is kept); keeps a string under [notes] verbatim; replaces any other
    string by [parseFloat] of it (rounded to a double) when that is not
    NaN and [> 0] and drops it otherwise; drops every other shape; every
    kept value is the [notes] string or a non-NaN positive number.  An
    object with no keys yields [null].  The input
    {"heartRate": "72", "oxygenSaturation": -5, "notes": "ok"} yields
    {heartRate: 72, notes: "ok"}; {"__proto__": 5} yields {}, and
    {"heartRate": "1e-400"} yields {} since the string parses to [0]. *)
Theorem clean_extracted_spec (m : doc) (k : string) :
  (m = ∅ -> clean_extracted m = None) /\
  (m <> ∅ -> exists c, clean_extracted m = Some c /\
     c !! "__proto__" = None /\
     (k <> "__proto__" ->
     (forall n, m !! k = Some (JNum n) ->
        c !! k = if (negb (isNaN n) && jgt n (jz 0))%bool
                 then Some (JNum n) else None) /\
     (forall s, m !! k = Some (JStr s) ->
        c !! k = if String.eqb k "notes" then Some (JStr s)
                 else if (negb (isNaN (parseFloat s)) && jgt (parseFloat s) (jz 0))%bool
                 then Some (JNum (parseFloat s)) else None) /\
     (forall v, m !! k = Some v -> is_string v = false ->
        (forall n, v <> JNum n) -> c !! k = None) /\
     (m !! k = None -> c !! k = None) /\
     (forall v, c !! k = Some v ->
        (k = "notes" /\ m !! k = Some v /\ is_string v = true) \/
        (exists n, v = JNum n /\ isNaN n = false /\ jgt n (jz 0) = true)))) /\
  clean_extracted {[ "heartRate" := JStr "72";
                     "oxygenSaturation" := JNum (jz (-5));
                     "notes" := JStr "ok" ]}
  = Some {[ "heartRate" := JNum (jz 72); "notes" := JStr "ok" ]} /\
  clean_extracted {[ "__proto__" := JNum (jz 5) ]} = Some ∅ /\
  clean_extracted {[ "heartRate" := JStr "1e-400" ]} = Some ∅.
Proof.
  split; [|split; [|split; [reflexivity|split; vm_compute; reflexivity]]].
  - intros ->. reflexivity.
  - intros Hne. unfold clean_extracted.
    destruct (decide (m = ∅)) as [Heq|_]; [contradiction|].
    eexists; split; [reflexivity|].
    split; [apply lookup_delete_eq|]. intros Hkp.
    rewrite !lookup_delete_ne by congruence.
    rewrite !map_lookup_imap.
    repeat split.
    + intros n Hn. rewrite Hn. simpl. unfold clean_value.
      destruct (String.eqb k "notes"); reflexivity.
    + intros s Hs. rewrite Hs. simpl. unfold clean_value.
      destruct (String.eqb k "notes"); reflexivity.
    + intros v Hv Hns Hnn. rewrite Hv. simpl. unfold clean_value.
      rewrite Hns, andb_false_r.
      destruct v; try reflexivity; [exfalso; eapply Hnn; reflexivity|discriminate].
    + intros Hn. rewrite Hn. reflexivity.
    + intros v Hv. destruct (m !! k) as [w|] eqn:Hw; [|discriminate].
      simpl in Hv. unfold clean_value in Hv.
      destruct (String.eqb k "notes" && is_string w)%bool eqn:Hnotes.
      * apply andb_true_iff in Hnotes as [Hk Hs].
        apply String.eqb_eq in Hk. injection Hv as <-. left; auto.
      * right. destruct w; try discriminate.
        -- destruct (negb (isNaN n) && jgt n (jz 0))%bool eqn:Hc; [|discriminate].
           injection Hv as <-. apply andb_true_iff in Hc as [H1 H2].
           apply negb_true_iff in H1. eauto.
        -- destruct (negb (isNaN (parseFloat s)) && jgt (parseFloat s) (jz 0))%bool
             eqn:Hc; [|discriminate].
           injection Hv as <-. apply andb_true_iff in Hc as [H1 H2].
           apply negb_true_iff in H1. eauto.
Qed.

(* ================================================================== *)
(** * Further properties of the code *)

(** Heart rate and pulse rate: a reading is [alert] exactly when it is a
    number outside [60, 100]; otherwise (NaN included) it is [normal],
    and it is never [critical]. *)
Theorem heart_rate_status_spec (ty : string) (v : jsnum) (v2 : option jsnum) :
  ty = "heartRate" \/ ty = "pulseRate" ->
  (getVitalStatus ty v v2 = alert <-> (jlt v (jz 60) || jgt v (jz 100)) = true) /\
  (getVitalStatus ty v v2 = normal <-> (jlt v (jz 60) || jgt v (jz 100)) = false) /\
  getVitalStatus ty v v2 <> critical.
Proof.
  intros [-> | ->]; destruct v as [| | |q]; unfold getVitalStatus; qsolve.
Qed.

Lemma heart_rate_status_spec_witness :
  ("pulseRate" = "heartRate" \/ "pulseRate" = "pulseRate") /\
  getVitalStatus "pulseRate" (jz 120) None = alert.
Proof.
  split; [right; reflexivity|].
  apply (heart_rate_status_spec "pulseRate" (jz 120) None (or_intror eq_refl)).
  reflexivity.
Defined.

(** Oxygen saturation: [critical] exactly below 92, [alert] exactly on
    [92, 95), [normal] from 95 on (and for NaN). *)
Theorem oxygen_status_spec (v : jsnum) :
  (getVitalStatus "oxygenSaturation" v None = critical <-> jlt v (jz 92) = true) /\
  (getVitalStatus "oxygenSaturation" v None = alert <->
     (jle (jz 92) v && jlt v (jz 95))%bool = true) /\
  (getVitalStatus "oxygenSaturation" v None = normal <->
     (jlt v (jz 95))%bool = false).
Proof. destruct v as [| | |q]; unfold getVitalStatus; qsolve. Qed.

(** Fasting blood sugar: [alert] below 70 or on [100, 126), [critical]
    from 126 on, [normal] on [70, 100) (and for NaN). *)
Theorem blood_sugar_status_spec (v : jsnum) :
  (getVitalStatus "bloodSugar" v None = critical <-> jge v (jz 126) = true) /\
  (getVitalStatus "bloodSugar" v None = alert <->
     (jlt v (jz 70) || (jle (jz 100) v && jlt v (jz 126)))%bool = true) /\
  (getVitalStatus "bloodSugar" v None = normal <->
     (jlt v (jz 70) || jge v (jz 100))%bool = false).
Proof. destruct v as [| | |q]; unfold getVitalStatus; qsolve. Qed.

(** Blood pressure: [critical] is only ever returned for a present
    diastolic [d] with [s >= 140] or [d >= 90], and then [s >= 90] and
    [d >= 60]; with the amended C1 statement this is an exact
    characterization. *)
Theorem bp_critical_only_when_high (s : jsnum) (d : option jsnum) :
  getVitalStatus "bloodPressure" s d = critical ->
  exists d', d = Some d' /\ (jge s (jz 140) || jge d' (jz 90))%bool = true /\
             jge s (jz 90) = true /\ jge d' (jz 60) = true.
Proof.
  destruct d as [d'|]; [|destruct s; discriminate].
  intros H. exists d'. split; [reflexivity|].
  revert H. destruct s as [| | |qs], d' as [| | |qd]; unfold getVitalStatus; qsolve.
Qed.

Lemma bp_critical_only_when_high_witness :
  getVitalStatus "bloodPressure" (jz 145) (Some (jz 85)) = critical /\
  exists d', Some (jz 85) = Some d' /\ (jge (jz 145) (jz 140) || jge d' (jz 90))%bool = true /\
             jge (jz 145) (jz 90) = true /\ jge d' (jz 60) = true.
Proof.
  split; [reflexivity|].
  apply bp_critical_only_when_high. reflexivity.
Defined.

(** Round trip: after a successful [updateLatestVitals userId data], a
    successful [getLatestVitals userId] returns every field of [data]
    unchanged except [userId] (set to the user), [date] and [source]
    (kept when truthy, defaulted otherwise); [id] is [data]'s own [id]
    when it has one and the user id otherwise. *)
Theorem update_then_get_roundtrip (now_iso userId : string) (data : doc) (st : store) :
  exists v,
    getLatestVitals true userId (snd (updateLatestVitals true now_iso userId data st)) = Ok v /\
    (forall k, k <> "userId" -> k <> "date" -> k <> "source" -> k <> "id" ->
       v !! k = data !! k) /\
    v !! "id" = Some (default (JStr userId) (data !! "id")) /\
    v !! "userId" = Some (JStr userId) /\
    v !! "date" = Some (or_default (data !! "date") (JStr now_iso)) /\
    v !! "source" = Some (or_default (data !! "source") (JStr "manual")).
Proof.
  unfold getLatestVitals, updateLatestVitals. cbn [snd latestVitals].
  rewrite lookup_insert_eq. eexists; split; [reflexivity|].
  split; [intros k H1 H2 H3 H4; apply lookup_reread_field; assumption|].
  unfold with_defaults.
  split; [|split; [|split]].
  - rewrite lookup_union, lookup_singleton_eq.
    rewrite !lookup_insert_ne by discriminate.
    destruct (data !! "id"); reflexivity.
  - apply lookup_union_Some_l.
    rewrite !lookup_insert_ne by discriminate. apply lookup_insert_eq.
  - apply lookup_union_Some_l.
    rewrite lookup_insert_ne by discriminate. apply lookup_insert_eq.
  - apply lookup_union_Some_l. apply lookup_insert_eq.
Qed.

(** [updateLatestVitals userId] touches only that user's snapshot: every
    other user's snapshot and the whole history are left as they were,
    whether or not the write succeeds. *)
Theorem updateLatestVitals_isolation (ok : bool) (now_iso userId other : string)
    (data : doc) (st : store) :
  other <> userId ->
  latestVitals (snd (updateLatestVitals ok now_iso userId data st)) !! other
  = latestVitals st !! other /\
  vitalsHistory (snd (updateLatestVitals ok now_iso userId data st))
  = vitalsHistory st.
Proof.
  intros H. unfold updateLatestVitals.
  destruct ok; simpl; [|split; reflexivity].
  split; [apply lookup_insert_ne; congruence | reflexivity].
Qed.

Lemma updateLatestVitals_isolation_witness :
  "u2" <> "u1" /\
  latestVitals (snd (updateLatestVitals true "t" "u1" ∅ (mkStore ∅ ∅))) !! "u2"
  = latestVitals (mkStore ∅ ∅) !! "u2".
Proof.
  split; [discriminate|].
  apply (updateLatestVitals_isolation true "t" "u1" "u2" ∅ (mkStore ∅ ∅)).
  discriminate.
Defined.

(** A successful [deleteLatestVitals userId] clears the dashboard: a
    later successful [getLatestVitals userId] returns the empty record;
    the history and other users' snapshots are untouched.  A failed
    delete reports "Failed to delete vitals" and changes nothing. *)
Theorem delete_then_get_empty (userId : string) (st : store) :
  getLatestVitals true userId (snd (deleteLatestVitals true userId st)) = Ok ∅ /\
  vitalsHistory (snd (deleteLatestVitals true userId st)) = vitalsHistory st /\
  (forall other, other <> userId ->
     latestVitals (snd (deleteLatestVitals true userId st)) !! other
     = latestVitals st !! other) /\
  deleteLatestVitals false userId st = (Err "Failed to delete vitals", st).
Proof.
  unfold deleteLatestVitals, getLatestVitals; cbn [snd latestVitals vitalsHistory].
  rewrite lookup_delete_eq.
  repeat split; [].
  intros other H. apply lookup_delete_ne. congruence.
Qed.

(** [addVitalToHistory] is append-only: a successful call appends exactly
    one entry (the generated id with the defaulted document) after the
    user's existing entries, and leaves other users' histories and all
    snapshots unchanged. *)
Theorem addVitalToHistory_appends (now_iso fresh_id userId : string)
    (data : doc) (st : store) :
  history_of (snd (addVitalToHistory true now_iso fresh_id userId data st)) userId
  = history_of st userId ++ [(fresh_id, with_defaults now_iso userId data)] /\
  (forall other, other <> userId ->
     vitalsHistory (snd (addVitalToHistory true now_iso fresh_id userId data st)) !! other
     = vitalsHistory st !! other) /\
  latestVitals (snd (addVitalToHistory true now_iso fresh_id userId data st))
  = latestVitals st.
Proof.
  unfold addVitalToHistory, history_of; cbn [snd latestVitals vitalsHistory].
  rewrite lookup_insert_eq. split; [reflexivity|split; [|reflexivity]].
  intros other H. apply lookup_insert_ne. congruence.
Qed.

(** After a fully successful [handleSaveVital], the user's snapshot and
    the new history entry are the same document: it carries
    [source: 'manual'], the save time as [date], the user id, and every
    other field from the submitted data, or from the previous screen
    snapshot where the submission leaves it out. *)
Theorem handleSaveVital_snapshot_is_history_entry (now_iso fresh_id userId : string)
    (latest data : doc) (st : store) :
  let res := handleSaveVital true true now_iso fresh_id userId latest data st in
  fst res = Ok tt /\
  exists snap,
    latestVitals (snd res) !! userId = Some snap /\
    history_of (snd res) userId = history_of st userId ++ [(fresh_id, snap)] /\
    snap !! "source" = Some (JStr "manual") /\
    snap !! "date" = Some (JStr now_iso) /\
    snap !! "userId" = Some (JStr userId) /\
    (forall k, k <> "source" -> k <> "date" -> k <> "userId" ->
       snap !! k = (data ∪ latest) !! k).
Proof.
  intros res. subst res.
  unfold handleSaveVital, updateLatestVitals, addVitalToHistory, history_of.
  cbn [fst snd latestVitals vitalsHistory].
  split; [reflexivity|]. eexists; split; [apply lookup_insert_eq|].
  rewrite lookup_insert_eq. split; [reflexivity|].
  unfold with_defaults.
  split; [rewrite !lookup_insert_eq; reflexivity|].
  split; [rewrite lookup_insert_ne, lookup_insert_eq by discriminate;
          rewrite lookup_insert_ne, lookup_insert_eq by discriminate;
          unfold or_default; destruct (truthy _); reflexivity|].
  split; [rewrite !lookup_insert_ne by discriminate; apply lookup_insert_eq|].
  intros k H1 H2 H3. rewrite !lookup_insert_ne by congruence. reflexivity.
Qed.

(** The two writes of [handleSaveVital] are not atomic: when the snapshot
    write fails nothing is stored; when the snapshot write succeeds and
    the history write fails, the snapshot is updated exactly as in a
    full success while the history is unchanged, and the error is
    "Failed to save vital history". *)
Theorem handleSaveVital_partial_failure (w_history : bool)
    (now_iso fresh_id userId : string) (latest data : doc) (st : store) :
  handleSaveVital false w_history now_iso fresh_id userId latest data st
  = (Err "Failed to save vital record", st) /\
  fst (handleSaveVital true false now_iso fresh_id userId latest data st)
  = Err "Failed to save vital history" /\
  vitalsHistory (snd (handleSaveVital true false now_iso fresh_id userId latest data st))
  = vitalsHistory st /\
  latestVitals (snd (handleSaveVital true false now_iso fresh_id userId latest data st))
  = latestVitals (snd (handleSaveVital true true now_iso fresh_id userId latest data st)).
Proof.
  unfold handleSaveVital, updateLatestVitals, addVitalToHistory.
  cbn [fst snd latestVitals vitalsHistory]. repeat split.
Qed.

(** [processUploadedDocument] writes nothing when the extraction threw,
    returned [null] or returned an empty object: the store is unchanged
    and the outcome is not the success alert. *)
Theorem processUpload_no_write (extraction : result (option doc))
    (w_latest w_history : bool) (now_iso fresh_id userId : string)
    (latest : doc) (st : store) :
  (extraction = Ok None \/ extraction = Ok (Some ∅) \/ exists e, extraction = Err e) ->
  snd (processUploadedDocument extraction w_latest w_history now_iso fresh_id userId latest st)
  = st /\
  fst (processUploadedDocument extraction w_latest w_history now_iso fresh_id userId latest st)
  <> Uploaded.
Proof.
  intros [-> | [-> | [e ->]]]; unfold processUploadedDocument; simpl;
    split; try reflexivity; discriminate.
Qed.

Lemma processUpload_no_write_witness :
  (Ok (Some ∅) = @Ok (option doc) None \/ Ok (Some ∅) = @Ok (option doc) (Some ∅)
   \/ exists e, Ok (Some ∅) = @Err (option doc) e) /\
  snd (processUploadedDocument (Ok (Some ∅)) true true "t" "h1" "u1" ∅ (mkStore ∅ ∅))
  = mkStore ∅ ∅.
Proof.
  split; [right; left; reflexivity|].
  apply (processUpload_no_write (Ok (Some ∅)) true true "t" "h1" "u1" ∅ (mkStore ∅ ∅)).
  right; left; reflexivity.
Defined.

(** A successful upload of a non-empty extraction stores one document as
    both the snapshot and a new history entry, tagged
    [source: 'imported'], in which every extracted field (other than
    [date], [source] and [userId]) overrides the previous snapshot. *)
Theorem processUpload_imported (e : doc) (now_iso fresh_id userId : string)
    (latest : doc) (st : store) :
  e <> ∅ ->
  fst (processUploadedDocument (Ok (Some e)) true true now_iso fresh_id userId latest st)
  = Uploaded /\
  exists snap,
    latestVitals (snd (processUploadedDocument (Ok (Some e)) true true
                         now_iso fresh_id userId latest st)) !! userId = Some snap /\
    history_of (snd (processUploadedDocument (Ok (Some e)) true true
                       now_iso fresh_id userId latest st)) userId
    = history_of st userId ++ [(fresh_id, snap)] /\
    snap !! "source" = Some (JStr "imported") /\
    (forall k x, e !! k = Some x -> k <> "source" -> k <> "date" -> k <> "userId" ->
       snap !! k = Some x).
Proof.
  intros Hne. unfold processUploadedDocument.
  destruct (decide (e = ∅)) as [Heq|_]; [contradiction|].
  unfold updateLatestVitals, addVitalToHistory, history_of.
  cbn [fst snd latestVitals vitalsHistory].
  split; [reflexivity|]. eexists; split; [apply lookup_insert_eq|].
  rewrite lookup_insert_eq. split; [reflexivity|].
  unfold with_defaults. split; [rewrite !lookup_insert_eq; reflexivity|].
  intros k x Hk H1 H2 H3. rewrite !lookup_insert_ne by congruence.
  apply lookup_union_Some_l. exact Hk.
Qed.

Lemma processUpload_imported_witness :
  ({[ "heartRate" := JNum (jz 72) ]} : doc) <> ∅ /\
  fst (processUploadedDocument (Ok (Some {[ "heartRate" := JNum (jz 72) ]})) true true
         "t" "h1" "u1" ∅ (mkStore ∅ ∅)) = Uploaded.
Proof.
  assert (Hne : ({[ "heartRate" := JNum (jz 72) ]} : doc) <> ∅)
    by apply map_non_empty_singleton.
  split; [exact Hne|].
  apply (processUpload_imported {[ "heartRate" := JNum (jz 72) ]} "t" "h1" "u1" ∅
           (mkStore ∅ ∅) Hne).
Defined.

(** Extraction and upload composed: when every value of the parsed
    object is dropped by the cleaning (say all readings are non-positive
    or non-numeric strings), the upload reports "No Vital Signs Found"
    and writes nothing. *)
Theorem upload_of_all_invalid_extraction (m : doc) (w_latest w_history : bool)
    (now_iso fresh_id userId : string) (latest : doc) (st : store) :
  (forall k v, m !! k = Some v -> clean_value k v = None) ->
  processUploadedDocument (Ok (clean_extracted m)) w_latest w_history
    now_iso fresh_id userId latest st = (NoVitalsFound, st).
Proof.
  intros Hall. unfold clean_extracted.
  destruct (decide (m = ∅)); [reflexivity|].
  assert (Hemp : map_imap clean_value m = ∅).
  { apply map_empty. intros i. rewrite map_lookup_imap.
    destruct (m !! i) as [v|] eqn:Hi; simpl; [apply (Hall i v Hi)|reflexivity]. }
  unfold processUploadedDocument. rewrite Hemp, delete_empty.
  destruct (decide (∅ = ∅)) as [_|Hn]; [reflexivity|contradiction].
Qed.

Lemma upload_of_all_invalid_extraction_witness :
  (forall k v, ({[ "heartRate" := JStr "n/a"; "oxygenSaturation" := JNum (jz (-5)) ]} : doc) !! k
               = Some v -> clean_value k v = None) /\
  processUploadedDocument
    (Ok (clean_extracted {[ "heartRate" := JStr "n/a"; "oxygenSaturation" := JNum (jz (-5)) ]}))
    true true "t" "h1" "u1" ∅ (mkStore ∅ ∅) = (NoVitalsFound, mkStore ∅ ∅).
Proof.
  assert (H : forall k v,
    ({[ "heartRate" := JStr "n/a"; "oxygenSaturation" := JNum (jz (-5)) ]} : doc) !! k
    = Some v -> clean_value k v = None).
  { intros k v Hk.
    rewrite lookup_insert_Some in Hk.
    destruct Hk as [[<- <-] | [_ Hk]]; [reflexivity|].
    rewrite lookup_singleton_Some in Hk. destruct Hk as [<- <-]. reflexivity. }
  split; [exact H|].
  apply upload_of_all_invalid_extraction. exact H.
Defined.

(** *** Response clean-up *)

Lemma strip_json_fences_plain (c : ascii) (r : list ascii) :
  c <> "`"%char -> strip_json_fences (c :: r) = c :: strip_json_fences r.
Proof. intros H; destruct c as [[] [] [] [] [] [] [] []]; try reflexivity; congruence. Qed.

Lemma strip_fences_plain (c : ascii) (r : list ascii) :
  c <> "`"%char -> strip_fences (c :: r) = c :: strip_fences r.
Proof. intros H; destruct c as [[] [] [] [] [] [] [] []]; try reflexivity; congruence. Qed.

Lemma strip_json_fences_app (b r : list ascii) :
  ~ In "`"%char b -> strip_json_fences (b ++ r) = b ++ strip_json_fences r.
Proof.
  induction b as [|c b IH]; intros Hb; [reflexivity|].
  simpl app. rewrite strip_json_fences_plain by (intros ->; apply Hb; left; reflexivity).
  rewrite IH by (intros H; apply Hb; right; exact H). reflexivity.
Qed.

Lemma strip_fences_app (b r : list ascii) :
  ~ In "`"%char b -> strip_fences (b ++ r) = b ++ strip_fences r.
Proof.
  induction b as [|c b IH]; intros Hb; [reflexivity|].
  simpl app. rewrite strip_fences_plain by (intros ->; apply Hb; left; reflexivity).
  rewrite IH by (intros H; apply Hb; right; exact H). reflexivity.
Qed.

Lemma skip_ws_app (l r : list ascii) :
  skip_ws (l ++ r) = match skip_ws l with [] => skip_ws r | x => x ++ r end.
Proof.
  induction l as [|c l IH]; [reflexivity|]. simpl.
  destruct (is_ws c); [exact IH|reflexivity].
Qed.

Lemma trim_snoc_ws (b : list ascii) (c : ascii) :
  is_ws c = true -> trim (b ++ [c]) = trim b.
Proof.
  intros Hc. unfold trim. rewrite skip_ws_app.
  destruct (skip_ws b) as [|x l] eqn:E; simpl.
  - rewrite Hc. reflexivity.
  - rewrite rev_app_distr. simpl. rewrite Hc. reflexivity.
Qed.

Lemma trim_fenced (p b q : list ascii) :
  p <> [] -> hd "a"%char p = "`"%char -> List.last q "a"%char = "`"%char ->
  trim (p ++ b ++ q) = p ++ b ++ q.
Proof.
  intros Hp Hh Hl. unfold trim.
  destruct p as [|c p]; [contradiction|]. simpl in Hh; subst c.
  change (skip_ws (("`"%char :: p) ++ b ++ q)) with (("`"%char :: p) ++ b ++ q).
  destruct q as [|d q] using rev_ind; [discriminate|].
  rewrite List.last_last in Hl. subst d.
  rewrite !app_assoc, rev_app_distr. simpl.
  rewrite rev_app_distr, rev_involutive. reflexivity.
Qed.

Lemma strip_json_fences_open (r : list ascii) :
  strip_json_fences ("`" :: "`" :: "`" :: "j" :: "s" :: "o" :: "n" :: "010" :: r)%char
  = strip_json_fences r.
Proof. reflexivity. Qed.

Lemma strip_json_fences_bare (r : list ascii) :
  strip_json_fences ("`" :: "`" :: "`" :: "010" :: r)%char
  = ("`" :: "`" :: "`" :: "010" :: strip_json_fences r)%char.
Proof. reflexivity. Qed.

Lemma strip_fences_open (r : list ascii) :
  strip_fences ("`" :: "`" :: "`" :: "010" :: r)%char = strip_fences r.
Proof. reflexivity. Qed.

(** the fence round trip of the response clean-up.  A reply wrapped
    as a Markdown code block, ["```json\n" ++ body ++ "\n```"] or
    ["```\n" ++ body ++ "\n```"], reaches [JSON.parse] as the trimmed
    body, provided the body contains no backtick. *)
Theorem clean_response_fenced (fence body : string) :
  (fence = "```json" \/ fence = "```") ->
  ~ In "`"%char (list_ascii_of_string body) ->
  clean_response
    (fence ++ String "010" (body ++ String "010" "```"))
  = string_of_list_ascii (trim (list_ascii_of_string body)).
Proof.
  intros Hf Hb. unfold clean_response.
  rewrite !list_ascii_of_string_append.
  set (B := list_ascii_of_string body).
  assert (Hq : forall P, P ++ list_ascii_of_string (String "010" (body ++ String "010" "```"))
            = P ++ ["010"%char] ++ B ++ ["010"; "`"; "`"; "`"]%char).
  { intros P. simpl. rewrite list_ascii_of_string_append. reflexivity. }
  destruct Hf as [-> | ->]; rewrite Hq; simpl list_ascii_of_string;
    rewrite (app_assoc _ [_] _);
    rewrite trim_fenced by (try discriminate; reflexivity); simpl app.
  - rewrite strip_json_fences_open, strip_json_fences_app by exact Hb.
    simpl strip_json_fences.
    rewrite strip_fences_app by exact Hb. simpl strip_fences.
    rewrite trim_snoc_ws by reflexivity. reflexivity.
  - rewrite strip_json_fences_bare, strip_json_fences_app by exact Hb.
    simpl strip_json_fences.
    rewrite strip_fences_open, strip_fences_app by exact Hb. simpl strip_fences.
    rewrite trim_snoc_ws by reflexivity. reflexivity.
Qed.

Lemma clean_response_fenced_witness :
  clean_response ("```json" ++ String "010" (" {}" ++ String "010" "```")) = "{}".
Proof.
  rewrite (clean_response_fenced "```json" " {}").
  - reflexivity.
  - left; reflexivity.
  - simpl. intros [H|[H|[H|[]]]]; discriminate.
Defined.


(** *** [getMimeType] *)

Lemma split_dot_nonempty (s : string) : split_dot s <> [].
Proof.
  induction s as [|c s IH]; [discriminate|]. simpl.
  destruct (split_dot s); [contradiction|].
  destruct (Ascii.eqb c "."); discriminate.
Qed.

Lemma split_dot_app_dot (a b : string) :
  exists x l, split_dot (a ++ String "." b) = x :: l ++ split_dot b.
Proof.
  induction a as [|c a IH]; simpl.
  - destruct (split_dot b) as [|seg rest] eqn:E;
      [exfalso; exact (split_dot_nonempty b E)|].
    exists EmptyString, []. reflexivity.
  - destruct IH as [x [l ->]].
    destruct (Ascii.eqb c ".").
    + exists EmptyString, (x :: l). reflexivity.
    + exists (String c x), l. reflexivity.
Qed.

Lemma last_app_nonempty {A} (l1 l2 : list A) (d : A) :
  l2 <> [] -> List.last (l1 ++ l2) d = List.last l2 d.
Proof.
  intros H. induction l1 as [|a l1 IH]; [reflexivity|].
  rewrite <- app_comm_cons. simpl. rewrite <- IH.
  destruct (l1 ++ l2) eqn:E; [|reflexivity].
  apply app_eq_nil in E. destruct E; contradiction.
Qed.

Lemma last_split_dot_app_dot (a b : string) :
  List.last (split_dot (a ++ String "." b)) EmptyString
  = List.last (split_dot b) EmptyString.
Proof.
  destruct (split_dot_app_dot a b) as [x [l ->]].
  rewrite app_comm_cons. apply last_app_nonempty, split_dot_nonempty.
Qed.

Lemma toLowerCase_app (a b : string) :
  toLowerCase (a ++ b) = (toLowerCase a ++ toLowerCase b)%string.
Proof. induction a as [|c a IH]; simpl; [reflexivity|]. rewrite IH. reflexivity. Qed.

Lemma lower_char_idem (c : ascii) : lower_char (lower_char c) = lower_char c.
Proof. destruct c as [[] [] [] [] [] [] [] []]; reflexivity. Qed.

Lemma toLowerCase_idem (s : string) : toLowerCase (toLowerCase s) = toLowerCase s.
Proof. induction s as [|c s IH]; simpl; [reflexivity|]. rewrite lower_char_idem, IH. reflexivity. Qed.

Lemma lower_char_dot (c : ascii) : lower_char c = "."%char -> c = "."%char.
Proof. destruct c as [[] [] [] [] [] [] [] []]; vm_compute; intros H; first [reflexivity | discriminate H]. Qed.

Lemma split_dot_no_dot (s : string) :
  ~ In "."%char (list_ascii_of_string s) -> split_dot s = [s].
Proof.
  induction s as [|c s IH]; intros Hs; [reflexivity|]. simpl.
  rewrite IH by (intros H; apply Hs; right; exact H).
  destruct (Ascii.eqb_spec c "."); [subst; exfalso; apply Hs; left; reflexivity|].
  reflexivity.
Qed.

Lemma toLowerCase_no_dot (s : string) :
  ~ In "."%char (list_ascii_of_string s) -> ~ In "."%char (list_ascii_of_string (toLowerCase s)).
Proof.
  induction s as [|c s IH]; intros Hs; simpl; [tauto|].
  intros [H|H].
  - apply Hs; left; apply lower_char_dot; exact H.
  - revert H. apply IH. intros H; apply Hs; right; exact H.
Qed.

Lemma toLowerCase_dot (e : string) : toLowerCase (String "." e) = String "." (toLowerCase e).
Proof. reflexivity. Qed.

(** only the text after the last dot of the URI decides an image's
    MIME type. *)
Theorem getMimeType_last_extension (u e : string) :
  getMimeType (u ++ String "." e) Image = getMimeType e Image.
Proof.
  unfold getMimeType. rewrite toLowerCase_app, toLowerCase_dot.
  rewrite last_split_dot_app_dot. reflexivity.
Qed.

(** for a URI ending in [.ext] with no dot in [ext], the image type is
    looked up from [ext] in lower case, so ["JPG"], ["Png"] and the like
    are recognised and any other extension falls back to
    ["image/jpeg"]. *)
Theorem getMimeType_extension (u e : string) :
  ~ In "."%char (list_ascii_of_string e) ->
  getMimeType (u ++ String "." e) Image = mime_of_ext (toLowerCase e).
Proof.
  intros He. unfold getMimeType. rewrite toLowerCase_app, toLowerCase_dot.
  rewrite last_split_dot_app_dot.
  rewrite split_dot_no_dot by (apply toLowerCase_no_dot; exact He).
  reflexivity.
Qed.

Lemma getMimeType_extension_witness :
  getMimeType ("file:///cache/scan.2024" ++ String "." "PNG") Image = "image/png".
Proof.
  rewrite (getMimeType_extension "file:///cache/scan.2024" "PNG").
  - reflexivity.
  - simpl. intros [H|[H|[H|[]]]]; discriminate.
Defined.

(** [getMimeType] ignores the case of the URI. *)
Theorem getMimeType_case_insensitive (u : string) (t : doc_type) :
  getMimeType (toLowerCase u) t = getMimeType u t.
Proof. destruct t; [unfold getMimeType; rewrite toLowerCase_idem|]; reflexivity. Qed.

(** [getMimeType] returns ["application/pdf"] exactly for PDFs, and
    otherwise one of the four image types. *)
Theorem getMimeType_range (u : string) (t : doc_type) :
  (getMimeType u t = "application/pdf" <-> t = Pdf) /\
  (t = Image -> In (getMimeType u t) ["image/jpeg"; "image/png"; "image/gif"; "image/webp"]).
Proof.
  destruct t; simpl; [|split; [tauto | discriminate]].
  unfold mime_of_ext.
  repeat match goal with |- context [if ?b then _ else _] => destruct b end;
    split; try (split; [discriminate | discriminate]); intros _; simpl; tauto.
Qed.

(** *** The heart-rate card *)

Lemma digits_aux_nonempty (f : nat) (n : Z) (acc : string) :
  acc <> EmptyString -> digits_aux f n acc <> EmptyString.
Proof.
  revert n acc. induction f as [|f IH]; intros n acc H; simpl; [exact H|].
  destruct (Z.eqb (n / 10) 0); [discriminate|]. apply IH. discriminate.
Qed.

Lemma Z_to_string_nonempty (z : Z) : Z_to_string z <> EmptyString.
Proof.
  unfold Z_to_string. destruct (Z.ltb z 0); [discriminate|].
  simpl. destruct (Z.eqb (z / 10) 0); [discriminate|].
  apply digits_aux_nonempty. discriminate.
Qed.

Lemma append_nonempty_r (a b : string) : b <> EmptyString -> (a ++ b)%string <> EmptyString.
Proof. destruct a; simpl; [tauto|discriminate]. Qed.

Lemma append_nonempty_l (a b : string) : a <> EmptyString -> (a ++ b)%string <> EmptyString.
Proof. destruct a; simpl; [tauto|discriminate]. Qed.

Lemma format_positive_nonempty (s x : Z) : format_positive s x <> EmptyString.
Proof.
  pose proof (Z_to_string_nonempty s) as Hs.
  unfold format_positive. cbv zeta.
  destruct (_ && _)%bool; [apply append_nonempty_l; exact Hs|].
  destruct (_ && _)%bool; [apply append_nonempty_r; discriminate|].
  destruct (_ && _)%bool; [cbn [String.append]; discriminate|].
  destruct (Nat.eqb _ 1); [apply append_nonempty_l; exact Hs|].
  apply append_nonempty_r. discriminate.
Qed.

Lemma num_to_string_nonempty (x : jsnum) : num_to_string x <> EmptyString.
Proof.
  destruct x as [| | |q]; try discriminate. unfold num_to_string. cbv zeta.
  destruct (Z.compare _ 0).
  - discriminate.
  - destruct (String.eqb _ "0"); discriminate.
  - destruct (dbl_decimal _ _) as [[c e]|]; [|discriminate].
    destruct (Z.eqb c 0); [discriminate|].
    destruct (strip_zeros c e). apply format_positive_nonempty.
Qed.

(** the [|| '--'] fallback of the heart-rate card only applies to a
    missing reading: a stored heart rate is always printed, so a [0] shows
    as ["0"] and a [NaN] as ["NaN"] (both with status ["normal"]). *)
Theorem hr_card_value (lv : doc) :
  hr_latestValue lv = match num_field lv "heartRate" with
                      | Some n => num_to_string n
                      | None => "--"
                      end /\
  (num_field lv "heartRate" = Some (jz 0) \/ num_field lv "heartRate" = Some NaN ->
   hr_status lv = normal).
Proof.
  unfold hr_latestValue, hr_status. destruct (num_field lv "heartRate") as [n|].
  - split.
    + destruct (String.eqb_spec (num_to_string n) "") as [E|_]; [|reflexivity].
      exfalso; exact (num_to_string_nonempty n E).
    + intros [H|H]; injection H as ->; reflexivity.
  - split; [reflexivity | intros [H|H]; discriminate].
Qed.

(** the heart-rate card is never shown as ["critical"]. *)
Theorem hr_status_never_critical (lv : doc) : hr_status lv <> critical.
Proof.
  unfold hr_status, getVitalStatus.
  destruct (num_field lv "heartRate") as [n|]; [|discriminate].
  destruct (num_truthy n); [|discriminate].
  destruct (isNaN n); [discriminate|]. simpl.
  match goal with |- (if ?b then _ else _) <> _ => destruct b end; discriminate.
Qed.

(** *** [getVitalsHistory] *)

(** Every record [getVitalsHistory] returns is a stored history entry of
    the user with an [id] field: the stored [id] field when the entry has
    one, the document id otherwise; its other fields are the stored
    ones.  A failed read returns no record. *)
Theorem getVitalsHistory_records (query : list (string * doc) -> list (string * doc))
    (userId : string) (st : store) :
  (forall l e, In e (query l) -> In e l) ->
  getVitalsHistory query false userId st = [] /\
  forall r, In r (getVitalsHistory query true userId st) ->
    exists id d, In (id, d) (history_of st userId) /\
      r !! "id" = Some (default (JStr id) (d !! "id")) /\
      (forall k, k <> "id" -> r !! k = d !! k).
Proof.
  intros Hq. split; [reflexivity|]. intros r Hr.
  unfold getVitalsHistory in Hr. apply in_map_iff in Hr as [[id d] [<- Hin]].
  exists id, d. split; [exact (Hq _ _ Hin)|]. unfold history_record; simpl.
  split.
  - rewrite lookup_union, lookup_singleton_eq. destruct (d !! "id"); reflexivity.
  - intros k Hk. rewrite lookup_union, lookup_singleton_ne by congruence.
    destruct (d !! k); reflexivity.
Qed.

Lemma getVitalsHistory_records_witness :
  getVitalsHistory (fun l => firstn 20 (rev l)) false "u1" (mkStore ∅ ∅) = [].
Proof.
  apply (getVitalsHistory_records (fun l => firstn 20 (rev l)) "u1" (mkStore ∅ ∅)).
  intros l e H. apply in_rev. rewrite <- (firstn_skipn 20 (rev l)).
  apply in_or_app. left. exact H.
Defined.

(** Loading the screen and then saving a reading by hand: the screen's
    [latestVitals] carries [id: userId] from [getLatestVitals], the merge
    copies it into the history document, and [getVitalsHistory] then
    reports the new record with [id] equal to the user id instead of its
    own document id. *)
Theorem manual_save_history_id (now_iso fresh_id userId : string)
    (d data : doc) (st : store) :
  latestVitals st !! userId = Some d -> d !! "id" = None -> data !! "id" = None ->
  exists v snap,
    getLatestVitals true userId st = Ok v /\
    history_of (snd (handleSaveVital true true now_iso fresh_id userId v data st)) userId
    = history_of st userId ++ [(fresh_id, snap)] /\
    history_record (fresh_id, snap) !! "id" = Some (JStr userId).
Proof.
  intros Hd Hdid Hdata. unfold getLatestVitals. rewrite Hd.
  eexists; eexists; split; [reflexivity|].
  unfold handleSaveVital, updateLatestVitals, addVitalToHistory, history_of.
  cbn [fst snd latestVitals vitalsHistory]. rewrite lookup_insert_eq.
  split; [reflexivity|].
  unfold history_record, with_defaults; simpl.
  rewrite lookup_union. rewrite !lookup_insert_ne by discriminate.
  rewrite lookup_union, Hdata, lookup_union, Hdid, lookup_singleton_eq.
  reflexivity.
Qed.

Lemma manual_save_history_id_witness :
  exists v snap,
    getLatestVitals true "u1"
      (mkStore {[ "u1" := {[ "heartRate" := JNum (jz 60) ]} ]} ∅) = Ok v /\
    history_of (snd (handleSaveVital true true "t" "h1" "u1" v
                       {[ "heartRate" := JNum (jz 70) ]}
                       (mkStore {[ "u1" := {[ "heartRate" := JNum (jz 60) ]} ]} ∅))) "u1"
    = history_of (mkStore {[ "u1" := {[ "heartRate" := JNum (jz 60) ]} ]} ∅) "u1"
      ++ [("h1", snap)] /\
    history_record ("h1", snap) !! "id" = Some (JStr "u1").
Proof.
  apply (manual_save_history_id "t" "h1" "u1" {[ "heartRate" := JNum (jz 60) ]}
           {[ "heartRate" := JNum (jz 70) ]}
           (mkStore {[ "u1" := {[ "heartRate" := JNum (jz 60) ]} ]} ∅)).
  - apply lookup_singleton_eq.
  - reflexivity.
  - reflexivity.
Defined.

(** *** CSV export *)

Lemma export_cell_delete_ne (vital : doc) (k k' : string) :
  k <> k' -> export_cell (delete k vital) k' = export_cell vital k'.
Proof. intros H. unfold export_cell. rewrite lookup_delete_ne by exact H. reflexivity. Qed.

(** In the CSV export a reading of [0] (or [NaN]) in one of the exported
    numeric columns gives exactly the row of a record without that
    reading. *)
Theorem csv_zero_reading_as_missing (fmt_date : option jval -> string)
    (vital : doc) (k : string) (n : jsnum) :
  In k numericFields -> vital !! k = Some (JNum n) -> num_truthy n = false ->
  csv_row fmt_date (delete k vital) = csv_row fmt_date vital.
Proof.
  intros Hk Hv Hn.
  assert (Hall : forall k', export_cell (delete k vital) k' = export_cell vital k').
  { intros k'. destruct (decide (k = k')) as [<-|Hne].
    - unfold export_cell. rewrite Hv, lookup_delete_eq. simpl. rewrite Hn. reflexivity.
    - apply export_cell_delete_ne, Hne. }
  assert (Hd : delete k vital !! "date" = vital !! "date").
  { apply lookup_delete_ne. intros Heq. rewrite Heq in Hk. unfold numericFields in Hk.
    repeat destruct Hk as [Hk|Hk]; try discriminate; contradiction. }
  unfold csv_row. rewrite Hd, !Hall. reflexivity.
Qed.

Lemma csv_zero_reading_as_missing_witness :
  csv_row (fun _ => "1/2/2025") (delete "heartRate"
    ({[ "heartRate" := JNum (jz 0); "temperature" := JNum (Fin (368 # 10)) ]} : doc))
  = csv_row (fun _ => "1/2/2025")
    {[ "heartRate" := JNum (jz 0); "temperature" := JNum (Fin (368 # 10)) ]}.
Proof.
  apply (csv_zero_reading_as_missing _ _ "heartRate" (jz 0)).
  - simpl; tauto.
  - apply lookup_insert_eq.
  - reflexivity.
Defined.

(** *** [QuickAddModal] *)

Lemma fold_quick_field_lookup (to_number : string -> jsnum) (formData : gmap string string)
    (fields : list string) (k : string) (v : jval) :
  fold_right (quick_field to_number formData) ∅ fields !! k = Some v ->
  In k fields /\ exists s, formData !! k = Some s /\ s <> "" /\ v = JNum (to_number s).
Proof.
  induction fields as [|f fields IH]; simpl; intros H.
  - rewrite lookup_empty in H. discriminate.
  - unfold quick_field at 1 in H.
    destruct (formData !! f) as [s|] eqn:Ef;
      [destruct (String.eqb_spec s "") as [Es|Es]|].
    + destruct (IH H) as [Hin Hs]. split; [right; exact Hin|exact Hs].
    + destruct (decide (f = k)) as [<-|Hne].
      * rewrite lookup_insert_eq in H. injection H as <-.
        split; [left; reflexivity|]. exists s. auto.
      * rewrite lookup_insert_ne in H by exact Hne.
        destruct (IH H) as [Hin Hs]. split; [right; exact Hin|exact Hs].
    + destruct (IH H) as [Hin Hs]. split; [right; exact Hin|exact Hs].
Qed.

Lemma fold_quick_field_present (to_number : string -> jsnum) (formData : gmap string string)
    (fields : list string) (k s : string) :
  In k fields -> formData !! k = Some s -> s <> "" ->
  fold_right (quick_field to_number formData) ∅ fields !! k = Some (JNum (to_number s)).
Proof.
  induction fields as [|f fields IH]; simpl; intros Hin Hk Hs; [contradiction|].
  unfold quick_field at 1. destruct (decide (f = k)) as [<-|Hne].
  - rewrite Hk. destruct (String.eqb_spec s "") as [E|_]; [contradiction|].
    apply lookup_insert_eq.
  - destruct Hin as [<-|Hin]; [contradiction|].
    destruct (formData !! f) as [s'|]; [destruct (String.eqb s' "")|];
      try rewrite lookup_insert_ne by exact Hne; apply IH; assumption.
Qed.

Lemma dataToSave_lookup (to_number : string -> jsnum) (formData : gmap string string)
    (k : string) (v : jval) :
  dataToSave to_number formData !! k = Some v ->
  (In k numericFields /\ exists s, formData !! k = Some s /\ s <> "" /\ v = JNum (to_number s))
  \/ (k = "notes" /\ exists s, formData !! "notes" = Some s /\ s <> "" /\ v = JStr s).
Proof.
  unfold dataToSave. intros H.
  destruct (formData !! "notes") as [s|] eqn:En;
    [destruct (String.eqb_spec s "") as [Es|Es]|].
  - left. apply fold_quick_field_lookup, H.
  - destruct (decide (k = "notes")) as [->|Hne].
    + rewrite lookup_insert_eq in H. injection H as <-. right. split; [reflexivity|].
      exists s. auto.
    + rewrite lookup_insert_ne in H by congruence. left. apply fold_quick_field_lookup, H.
  - left. apply fold_quick_field_lookup, H.
Qed.

(** What the quick-add form hands to [onSave] holds only the seven
    numeric fields and [notes], each typed in (non-empty) by the user;
    every numeric value is [Number] of the text and is never [NaN],
    whatever [Number] returns on other inputs. *)
Theorem quick_handleSave_fields (to_number : string -> jsnum)
    (formData : gmap string string) (d : doc) :
  quick_handleSave to_number formData = Some d ->
  forall k v, d !! k = Some v ->
    (In k numericFields /\ exists s n, formData !! k = Some s /\ s <> "" /\
       v = JNum n /\ n = to_number s /\ isNaN n = false)
    \/ (k = "notes" /\ exists s, formData !! "notes" = Some s /\ s <> "" /\ v = JStr s).
Proof.
  unfold quick_handleSave. destruct (validateForm to_number formData) eqn:Hval;
    [|discriminate]. intros Hd; injection Hd as <-. intros k v Hk.
  destruct (dataToSave_lookup _ _ _ _ Hk) as [[Hin [s [Hs [Hne ->]]]] | Hn];
    [left | right; exact Hn].
  split; [exact Hin|]. exists s, (to_number s). repeat split; try assumption.
  unfold validateForm in Hval.
  destruct (existsb _ _); [|discriminate]. cbn [negb] in Hval.
  rewrite forallb_forall in Hval. specialize (Hval k Hin). rewrite Hs in Hval.
  destruct (String.eqb_spec s "") as [E|_]; [contradiction|].
  simpl in Hval. destruct (isNaN (to_number s)); [discriminate|reflexivity].
Qed.

Lemma quick_handleSave_fields_witness :
  quick_handleSave (fun s => if String.eqb s "72" then jz 72 else NaN)
    {[ "heartRate" := "72" ]} = Some {[ "heartRate" := JNum (jz 72) ]} /\
  exists s n, ({[ "heartRate" := "72" ]} : gmap string string) !! "heartRate" = Some s /\
    s <> "" /\ JNum (jz 72) = JNum n /\
    n = (fun s => if String.eqb s "72" then jz 72 else NaN) s /\ isNaN n = false.
Proof.
  assert (H : quick_handleSave (fun s => if String.eqb s "72" then jz 72 else NaN)
                {[ "heartRate" := "72" ]} = Some {[ "heartRate" := JNum (jz 72) ]}).
  { unfold quick_handleSave, validateForm, dataToSave.
    rewrite map_to_list_singleton. simpl. reflexivity. }
  split; [exact H|].
  destruct (quick_handleSave_fields _ _ _ H "heartRate" (JNum (jz 72)) (lookup_insert_eq _ _ _))
    as [[_ Hs] | [Hn _]]; [exact Hs | discriminate].
Defined.

Lemma form_has_value (formData : gmap string string) (k s : string) :
  formData !! k = Some s -> js_trim s <> "" ->
  existsb (fun v => negb (String.eqb (js_trim v) "")) (map snd (map_to_list formData)) = true.
Proof.
  intros Hk Hs. apply existsb_exists. exists s. split.
  - apply in_map_iff. exists (k, s). split; [reflexivity|].
    apply list_elem_of_In, elem_of_map_to_list, Hk.
  - destruct (String.eqb_spec (js_trim s) ""); [contradiction|reflexivity].
Qed.

(** An all-blank quick-add form (every field empty or white space) is
    rejected and nothing is saved. *)
Theorem quick_handleSave_blank_form (to_number : string -> jsnum)
    (formData : gmap string string) :
  (forall k s, formData !! k = Some s -> js_trim s = "") ->
  quick_handleSave to_number formData = None.
Proof.
  intros Hb. unfold quick_handleSave, validateForm.
  destruct (existsb _ _) eqn:E; [|reflexivity].
  apply existsb_exists in E as [x [Hin Hx]].
  apply in_map_iff in Hin as [[k s] [Hxs Hin]]. simpl in Hxs. subst x.
  apply list_elem_of_In, elem_of_map_to_list in Hin.
  rewrite (Hb _ _ Hin) in Hx. discriminate.
Qed.

Lemma quick_handleSave_blank_form_witness :
  quick_handleSave (fun _ => NaN) {[ "heartRate" := "  "; "notes" := ""  ]} = None.
Proof.
  apply quick_handleSave_blank_form. intros k s Hk.
  apply lookup_insert_Some in Hk as [[_ <-] | [_ Hk]]; [reflexivity|].
  apply lookup_singleton_Some in Hk as [_ <-]. reflexivity.
Defined.

(** A numeric field holding only white space (say ["  "]) passes
    validation, since [Number] of it is [0] and not [NaN], as soon as
    another field is filled in and the other numeric fields are numbers;
    it is then saved as a reading of [0]. *)
Theorem quick_handleSave_blank_numeric_is_zero (to_number : string -> jsnum)
    (formData : gmap string string) (k s : string) :
  (forall t, js_trim t = "" -> to_number t = jz 0) ->
  In k numericFields -> formData !! k = Some s -> s <> "" -> js_trim s = "" ->
  (exists k' s', formData !! k' = Some s' /\ js_trim s' <> "") ->
  (forall k' s', In k' numericFields -> formData !! k' = Some s' -> js_trim s' <> "" ->
     isNaN (to_number s') = false) ->
  exists d, quick_handleSave to_number formData = Some d /\ d !! k = Some (JNum (jz 0)).
Proof.
  intros HN Hin Hk Hs Hts [k' [s' [Hk' Hs']]] Hnum.
  unfold quick_handleSave.
  assert (Hval : validateForm to_number formData = true).
  { unfold validateForm. rewrite (form_has_value _ _ _ Hk' Hs'). cbn [negb].
    apply forallb_forall. intros f Hf.
    destruct (formData !! f) as [v|] eqn:Ev; [|reflexivity].
    destruct (String.eqb_spec v ""); [reflexivity|]. simpl.
    destruct (String.eqb_spec (js_trim v) "") as [Ht|Ht].
    - rewrite (HN _ Ht). reflexivity.
    - rewrite (Hnum f v Hf Ev Ht). reflexivity. }
  rewrite Hval. eexists; split; [reflexivity|].
  assert (Hnotes : k <> "notes").
  { intros ->. unfold numericFields in Hin.
    repeat destruct Hin as [Hin|Hin]; try discriminate; contradiction. }
  unfold dataToSave.
  rewrite <- (HN s Hts).
  destruct (formData !! "notes") as [n|];
    [destruct (String.eqb n "")|];
    try rewrite lookup_insert_ne by congruence;
    apply fold_quick_field_present; assumption.
Qed.

Lemma quick_handleSave_blank_numeric_is_zero_witness :
  exists d,
    quick_handleSave (fun t => if String.eqb (js_trim t) "" then jz 0 else NaN)
      {[ "heartRate" := " "; "notes" := "after a run" ]} = Some d /\
    d !! "heartRate" = Some (JNum (jz 0)).
Proof.
  apply (quick_handleSave_blank_numeric_is_zero _ _ "heartRate" " ").
  - intros t Ht. rewrite Ht. reflexivity.
  - simpl; tauto.
  - apply lookup_insert_eq.
  - discriminate.
  - reflexivity.
  - exists "notes", "after a run". split; [reflexivity|discriminate].
  - intros k' s' Hk' Hs' Ht.
    apply lookup_insert_Some in Hs' as [[_ <-] | [_ Hs']]; [contradiction Ht; reflexivity|].
    apply lookup_singleton_Some in Hs' as [<- _].
    unfold numericFields in Hk'.
    repeat destruct Hk' as [Hk'|Hk']; try discriminate; contradiction.
Defined.
